(** * cost_estimator.py: the profitability model of the Streamlit app

    A shallow embedding of [calculate_financials] (src/cost_estimator.py,
    lines 13-82) and of the module constants it reads (lines 6-10).

    Number model.  [mau] comes from an integer slider and is a Python int:
    it is a [Z] here, and [mau == 0] and [mau + 1] are integer operations.
    Every other quantity is a Python float; floats are idealised as real
    numbers ([R]): no rounding, no overflow, no infinities or NaN.
    Two things the floats do are therefore outside the model, and the
    statements that would depend on them carry a bound instead.  Where the
    int [mau] meets a float (first on line 25) Python converts it and
    raises OverflowError beyond the float range, about 1.8e308: the
    statements whose subject is which inputs return and which raise keep
    [mau] within [INT_AS_FLOAT_MAX].  A positive float below the float resolution
    underflows to 0.0 when divided: the statement that [gb_per_video] is
    positive takes the video length from the slider's minimum, 5, upwards.

    Effects.  Python expressions may raise: [/] raises ZeroDivisionError on
    a zero divisor, [math.log10] raises ValueError outside (0, +oo), and
    [d[k]] raises KeyError on a missing key.  The function therefore lives
    in a small error monad, [result], and every division of the source is a
    monadic step, whatever its divisor.

    The [costs] dict is an association list in insertion order, which is the
    order [costs.values()] iterates in. *)

From Stdlib Require Import Reals Lra ZArith Lia String Ascii List.
From Stdlib Require Import DecimalString.
Import ListNotations.

Local Open Scope R_scope.

(** ** Exceptions and the error monad *)

Inductive py_error : Type :=
| ValueError          (* math domain error *)
| ZeroDivisionError
| KeyError
| ComplexResult.      (* not an exception: marks a float power whose value
                         is a Python complex number, which [R] cannot hold *)

Inductive result (A : Type) : Type :=
| Ok (a : A)
| Raise (e : py_error).

Arguments Ok {A} a.
Arguments Raise {A} e.

Definition bind {A B : Type} (c : result A) (k : A -> result B) : result B :=
  match c with
  | Ok a => k a
  | Raise e => Raise e
  end.

Notation "x <- c ;; k" := (bind c (fun x => k))
  (at level 61, c at next level, right associativity).

(** ** Python primitives used by the source *)

(** [x / y] on floats. *)
Definition py_div (x y : R) : result R :=
  if Req_dec_T y 0 then Raise ZeroDivisionError else Ok (x / y).

(** [math.log10(x)]. *)
Definition math_log10 (x : R) : result R :=
  if Rlt_dec 0 x then Ok (ln x / ln 10) else Raise ValueError.

(** [x ** y] on floats.  A zero base with a negative exponent raises; a
    negative base gives a real number only at an integral exponent, which
    the two exponents of the source (1.5 and 1.8) are not. *)
Definition py_pow (x y : R) : result R :=
  if Rlt_dec 0 x then Ok (Rpower x y)
  else if Req_dec_T x 0 then
    if Rlt_dec 0 y then Ok 0
    else if Req_dec_T y 0 then Ok 1
    else Raise ZeroDivisionError
  else Raise ComplexResult.

(** ** Dicts with string keys, in insertion order *)

Definition dict : Type := list (string * R).

(** [d[k] = v]: replaces the value in place, or appends a new key. *)
Fixpoint dict_set (d : dict) (k : string) (v : R) : dict :=
  match d with
  | [] => [(k, v)]
  | (k', v') :: d' =>
      if String.eqb k' k then (k, v) :: d' else (k', v') :: dict_set d' k v
  end.

Fixpoint dict_get (d : dict) (k : string) : option R :=
  match d with
  | [] => None
  | (k', v') :: d' => if String.eqb k' k then Some v' else dict_get d' k
  end.

(** [d[k]] as an expression. *)
Definition py_getitem (d : dict) (k : string) : result R :=
  match dict_get d k with
  | Some v => Ok v
  | None => Raise KeyError
  end.

Definition dict_values (d : dict) : list R := map snd d.

(** [sum(xs)]: starts from 0 and adds from the left. *)
Definition py_sum (xs : list R) : R := fold_left Rplus xs 0.

(** ** Formatting [{n:,.0f}] for an integer [n]

    The format converts [n] to a float first, which is exact up to 2^53;
    the source formats 2,000,000 only. *)

Fixpoint group3 (k : nat) (rev_digits : list ascii) : list ascii :=
  match rev_digits with
  | [] => []
  | c :: rest =>
      match k with
      | O => ","%char :: c :: group3 2 rest
      | S k' => c :: group3 k' rest
      end
  end.

Definition format_comma_0f (n : Z) : string :=
  let digits := list_ascii_of_string
                  (NilZero.string_of_uint (N.to_uint (Z.abs_N n))) in
  let grouped := rev (group3 3 (rev digits)) in
  ((if (n <? 0)%Z then "-" else "") ++ string_of_list_ascii grouped)%string.

(** ** Pricing and core logic constants (lines 6-10) *)

Definition PRICE_PER_VIDEO_MINUTE_TRANSCODE : R := 0.0075.
Definition PRICE_PER_1000_CHARS_AI : R := 0.09.
Definition PRICE_PER_GB_STORAGE : R := 0.015.
Definition PRICE_PER_MILLION_READ_OPS : R := 0.36.
Definition AD_IMPRESSION_THRESHOLD : Z := 2000000.

Definition cost_keys : list string :=
  ["media_processing"; "storage_delivery"; "database";
   "compute_recommendation"; "devops"; "total"]%string.

Definition msg_eligible : string :=
  "✅ Platform is eligible for AdSense for Video."%string.

Definition msg_not_eligible : string :=
  ("⚠️ Platform is NOT eligible for AdSense. Needs >"
   ++ format_comma_0f AD_IMPRESSION_THRESHOLD ++ " monthly views.")%string.

(** ** The report returned by [calculate_financials] (lines 75-82) *)

Record report : Type := mkReport {
  costs : dict;
  subscription_revenue : R;
  ad_revenue : R;
  total_revenue : R;
  net_profit : R;
  ad_eligibility_message : string
}.

(** ** calculate_financials *)

(** Line 44: [math.log10(mau + 1) / math.log10(100000)]. *)
Definition scale_factor (mau : Z) : result R :=
  num <- math_log10 (IZR (mau + 1)) ;;
  den <- math_log10 100000 ;;
  py_div num den.

(** Lines 20-48, section "1. Cost Calculation": the [costs] dict. *)
Definition cost_calculation
    (mau : Z) (dau_percent upload_percent video_length_sec
     data_consumption_gb : R) : result dict :=
  let costs : dict := [] in
  if (mau =? 0)%Z then
    Ok (fold_left (fun d key => dict_set d key 0) cost_keys [])
  else
    dau_share <- py_div dau_percent 100 ;;
    let dau := IZR mau * dau_share in
    upload_share <- py_div upload_percent 100 ;;
    let videos_per_month := dau * upload_share * 30 in
    length_30s <- py_div video_length_sec 30 ;;
    let chars_per_video := length_30s * 450 in
    let num_renditions := 5 in

    length_min <- py_div video_length_sec 60 ;;
    let transcode_cost :=
      videos_per_month * length_min * num_renditions
      * PRICE_PER_VIDEO_MINUTE_TRANSCODE in
    kchars <- py_div (videos_per_month * (chars_per_video * 2)) 1000 ;;
    let ai_cost := kchars * PRICE_PER_1000_CHARS_AI in
    let costs := dict_set costs "media_processing" (transcode_cost + ai_cost) in

    let total_videos_stored := videos_per_month * 12 in
    total_gb_stored <- py_div (total_videos_stored * 75) 1024 ;;
    let storage_cost := total_gb_stored * PRICE_PER_GB_STORAGE in

    let total_gb_delivered := IZR mau * data_consumption_gb in
    read_ops_millions <- py_div total_gb_delivered 10 ;;
    let read_ops_cost := read_ops_millions * PRICE_PER_MILLION_READ_OPS in
    let costs := dict_set costs "storage_delivery" (storage_cost + read_ops_cost) in

    scale_factor <- scale_factor mau ;;
    p15 <- py_pow scale_factor 1.5 ;;
    let costs := dict_set costs "database" (2550 * p15) in
    p18 <- py_pow scale_factor 1.8 ;;
    let costs := dict_set costs "compute_recommendation" (3250 * p18) in
    let costs := dict_set costs "devops" (50 * scale_factor) in
    let costs := dict_set costs "total" (py_sum (dict_values costs)) in
    Ok costs.

(** Lines 57-58: [gb_per_video]. *)
Definition gb_per_video (video_length_sec : R) : result R :=
  length_30s <- py_div video_length_sec 30 ;;
  let mb_per_video := length_30s * 15 in
  py_div mb_per_video 1024.

(** Line 59: the guarded division. *)
Definition views_per_user (video_length_sec data_consumption_gb : R)
  : result R :=
  gb_per_video <- gb_per_video video_length_sec ;;
  if Rlt_dec 0 gb_per_video
  then py_div data_consumption_gb gb_per_video
  else Ok 0.

(** Line 60. *)
Definition total_monthly_impressions
    (mau : Z) (video_length_sec data_consumption_gb : R) : result R :=
  views_per_user <- views_per_user video_length_sec data_consumption_gb ;;
  Ok (IZR mau * views_per_user).

Definition calculate_financials
    (mau : Z) (dau_percent upload_percent video_length_sec
     sub_price sub_percent ad_rpm data_consumption_gb : R) : result report :=
  (* --- 1. Cost Calculation --- *)
  costs <- cost_calculation mau dau_percent upload_percent video_length_sec
             data_consumption_gb ;;

  (* --- 2. Revenue Calculation --- *)
  sub_share <- py_div sub_percent 100 ;;
  let num_subscribers := IZR mau * sub_share in
  let subscription_revenue := num_subscribers * sub_price in

  total_monthly_impressions <-
    total_monthly_impressions mau video_length_sec data_consumption_gb ;;

  let ad_revenue := 0 in
  let ad_eligibility_message := ""%string in
  ad <- (if Rle_dec (IZR AD_IMPRESSION_THRESHOLD) total_monthly_impressions
         then
           kviews <- py_div total_monthly_impressions 1000 ;;
           Ok (kviews * ad_rpm, msg_eligible)
         else
           Ok (ad_revenue, msg_not_eligible)) ;;
  let '(ad_revenue, ad_eligibility_message) := ad in

  let total_revenue := subscription_revenue + ad_revenue in

  (* --- 3. Net Profit Calculation --- *)
  costs_total <- py_getitem costs "total" ;;
  let net_profit := total_revenue - costs_total in

  Ok {| costs := costs;
        subscription_revenue := subscription_revenue;
        ad_revenue := ad_revenue;
        total_revenue := total_revenue;
        net_profit := net_profit;
        ad_eligibility_message := ad_eligibility_message |}.

(** * Closed forms

    What the steps of [calculate_financials] evaluate to where they do not
    raise.  The lemmas below prove each of them against the code. *)

(** Line 44, for [mau >= 0]. *)
Definition scale_factor_value (mau : Z) : R :=
  ln (IZR (mau + 1)) / ln 10 / (ln 100000 / ln 10).

(** Lines 25-32. *)
Definition media_processing_value (mau : Z) (d u v : R) : R :=
  let videos_per_month := IZR mau * (d / 100) * (u / 100) * 30 in
  videos_per_month * (v / 60) * 5 * PRICE_PER_VIDEO_MINUTE_TRANSCODE
  + videos_per_month * (v / 30 * 450 * 2) / 1000 * PRICE_PER_1000_CHARS_AI.

(** Lines 34-42. *)
Definition storage_delivery_value (mau : Z) (d u g : R) : R :=
  let videos_per_month := IZR mau * (d / 100) * (u / 100) * 30 in
  videos_per_month * 12 * 75 / 1024 * PRICE_PER_GB_STORAGE
  + IZR mau * g / 10 * PRICE_PER_MILLION_READ_OPS.

(** Lines 45-47. *)
Definition database_value (mau : Z) : R :=
  2550 * Rpower (scale_factor_value mau) 1.5.

Definition compute_recommendation_value (mau : Z) : R :=
  3250 * Rpower (scale_factor_value mau) 1.8.

Definition devops_value (mau : Z) : R := 50 * scale_factor_value mau.

(** Line 48. *)
Definition total_value (mau : Z) (d u v g : R) : R :=
  media_processing_value mau d u v + storage_delivery_value mau d u g
  + database_value mau + compute_recommendation_value mau + devops_value mau.

(** The [costs] dict of both branches. *)
Definition costs_value (mau : Z) (d u v g : R) : dict :=
  if (mau =? 0)%Z then
    [("media_processing", 0); ("storage_delivery", 0); ("database", 0);
     ("compute_recommendation", 0); ("devops", 0); ("total", 0)]%string
  else
    [("media_processing", media_processing_value mau d u v);
     ("storage_delivery", storage_delivery_value mau d u g);
     ("database", database_value mau);
     ("compute_recommendation", compute_recommendation_value mau);
     ("devops", devops_value mau);
     ("total", total_value mau d u v g)]%string.

(** Lines 57-59. *)
Definition views_per_user_value (v g : R) : R :=
  if Rlt_dec 0 (v / 30 * 15 / 1024) then g / (v / 30 * 15 / 1024) else 0.

(** Lines 62-68: the pair [(ad_revenue, ad_eligibility_message)]. *)
Definition ad_value (impressions ad_rpm : R) : R * string :=
  if Rle_dec 2000000 impressions
  then (impressions / 1000 * ad_rpm, msg_eligible)
  else (0, msg_not_eligible).

(** Lines 52-82, given the [costs] dict and its ["total"] entry. *)
Definition report_value
    (mau : Z) (v price sp ad_rpm g : R) (cs : dict) (tot : R) : report :=
  let sub := IZR mau * (sp / 100) * price in
  let ad := ad_value (IZR mau * views_per_user_value v g) ad_rpm in
  {| costs := cs;
     subscription_revenue := sub;
     ad_revenue := fst ad;
     total_revenue := sub + fst ad;
     net_profit := sub + fst ad - tot;
     ad_eligibility_message := snd ad |}.

(** The slope of storage_delivery, which is linear in mau (lines 34-42). *)
Definition storage_delivery_rate (d u g : R) : R :=
  d / 100 * (u / 100) * 30 * 12 * 75 / 1024 * PRICE_PER_GB_STORAGE
  + g / 10 * PRICE_PER_MILLION_READ_OPS.

(** A cost entry over both branches of line 21: 0 at [mau == 0]. *)
Definition branch (mau : Z) (x : R) : R := if (mau =? 0)%Z then 0 else x.

(** ** The range of ints that convert to a float

    An int operand of a float operation is converted to a float, and the
    conversion raises OverflowError beyond the largest float, about
    1.8e308.  Every int up to 10^308 in absolute value converts. *)
Definition INT_AS_FLOAT_MAX : Z := 10 ^ 308.

(** ** Vocabulary of the statements *)

(** Entry [k] of the costs dict of [r] is [x]. *)
Definition cost_is (r : report) (k : string) (x : R) : Prop :=
  dict_get (costs r) k = Some x.

(** Entry [k] of the costs dict does not decrease from [r1] to [r2]. *)
Definition cost_le (k : string) (r1 r2 : report) : Prop :=
  exists x1 x2, cost_is r1 k x1 /\ cost_is r2 k x2 /\ x1 <= x2.

(** Entry [k] of the costs dict is present and non-negative. *)
Definition cost_nonneg (k : string) (r : report) : Prop :=
  exists x, cost_is r k x /\ 0 <= x.

(** ** Sample reports *)

(** The report of the slider defaults (lines 95-111): mau = 1,000,000,
    dau 20 %, uploads 5 %, 30 s videos, $7.99 at 2 % subscribers,
    RPM $0.10, 0.7 GB per user. *)
Definition default_report : report :=
  report_value 1000000 30 7.99 2 0.10 0.7
    (costs_value 1000000 20 5 30 0.7) (total_value 1000000 20 5 30 0.7).

(** The report at exactly 2,000,000 impressions: 2,000,000 users watching
    one 30 s video (15 MB) each. *)
Definition threshold_report : report :=
  report_value 2000000 30 7.99 2 0.10 (15 / 1024)
    (costs_value 2000000 20 5 30 (15 / 1024))
    (total_value 2000000 20 5 30 (15 / 1024)).

(** A report within the slider ranges that loses money: 100,000 users,
    5 % daily actives, 1 % uploads, 120 s videos, a free subscription taken
    by 0.25 %, RPM $0.04, 0.1 GB per user. *)
Definition loss_report : report :=
  report_value 100000 120 0 0.25 0.04 0.1
    (costs_value 100000 5 1 120 0.1) (total_value 100000 5 1 120 0.1).

(** * The results page (lines 113-152)

    The script below the sidebar is modelled from the call on line 114 to
    the rule on line 152.  Streamlit calls are output effects: each one
    appends an element to a container of the page.  The page is the trace
    of these events in emission order; an exception stops the script and
    leaves the elements emitted so far. *)

(** A number shown through the f-string [f"${x:,.0f}"]. *)
Inductive amount : Type :=
| Dollars (x : R).

Inductive element : Type :=
| Header (body : string)
| Subheader (body : string)
| Metric (label : string) (value : amount) (delta_color : string)
         (help : option string)
| Markdown (body : string)
| Info (body : string)
| Columns (n : nat).

(** [Main] is the page itself, [Column 1] and [Column 2] are [col1] and
    [col2] of line 136. *)
Inductive container : Type :=
| Main
| Column (i : nat).

Definition event : Type := (container * element)%type.

(** Scripts: the events emitted, and a value or the exception that stopped
    the script. *)
Definition script (A : Type) : Type := (list event * result A)%type.

Definition sbind {A B : Type} (c : script A) (k : A -> script B) : script B :=
  match snd c with
  | Ok a => (fst c ++ fst (k a), snd (k a))
  | Raise e => (fst c, Raise e)
  end.

Definition emit (c : container) (e : element) : script unit :=
  ([(c, e)], Ok tt).

Definition lift {A : Type} (r : result A) : script A := ([], r).

Notation "x <~ c ;; k" := (sbind c (fun x => k))
  (at level 61, c at next level, right associativity).
Notation "c ;;; k" := (sbind c (fun _ => k))
  (at level 61, right associativity).

(** The elements a trace puts in one container. *)
Definition elements_in_main (t : list event) : list element :=
  flat_map (fun ev => match fst ev with Main => [snd ev] | Column _ => [] end) t.

Definition elements_in_column (i : nat) (t : list event) : list element :=
  flat_map (fun ev => match fst ev with
                      | Main => []
                      | Column j => if Nat.eqb i j then [snd ev] else []
                      end) t.

(** [st.metric] without [delta_color] uses Streamlit's default. *)
Definition default_delta_color : string := "normal".

(** Lines 121-125. *)
Definition profit_color (net_profit : R) : string :=
  let profit_color := "normal"%string in
  if Rlt_dec 0 net_profit then "inverse"%string
  else if Rlt_dec net_profit 0 then "off"%string
  else profit_color.

(** Lines 119-152. *)
Definition main_panel (financials : report) : script unit :=
  emit Main (Header "Financial Summary") ;;;

  let profit_color := profit_color (net_profit financials) in

  emit Main
    (Metric "Net Monthly Profit (Revenue - Costs)"
       (Dollars (net_profit financials)) profit_color
       (Some "Positive numbers indicate profit; negative numbers indicate loss."%string)) ;;;
  emit Main (Markdown "---") ;;;

  emit Main (Columns 2) ;;;

  emit (Column 1) (Subheader "Revenue Breakdown") ;;;
  emit (Column 1)
    (Metric "Total Monthly Revenue" (Dollars (total_revenue financials))
       default_delta_color None) ;;;
  emit (Column 1)
    (Metric "↳ Subscription Revenue"
       (Dollars (subscription_revenue financials)) default_delta_color None) ;;;
  emit (Column 1)
    (Metric "↳ Ad Revenue" (Dollars (ad_revenue financials))
       default_delta_color None) ;;;
  emit (Column 1) (Info (ad_eligibility_message financials)) ;;;

  emit (Column 2) (Subheader "Cost Breakdown") ;;;
  total <~ lift (py_getitem (costs financials) "total") ;;
  emit (Column 2)
    (Metric "Total Monthly Costs" (Dollars total) default_delta_color None) ;;;
  media_processing <~ lift (py_getitem (costs financials) "media_processing") ;;
  emit (Column 2)
    (Metric "↳ Media Processing & AI" (Dollars media_processing)
       default_delta_color None) ;;;
  storage_delivery <~ lift (py_getitem (costs financials) "storage_delivery") ;;
  emit (Column 2)
    (Metric "↳ Storage & Delivery" (Dollars storage_delivery)
       default_delta_color None) ;;;
  database <~ lift (py_getitem (costs financials) "database") ;;
  compute_recommendation <~
    lift (py_getitem (costs financials) "compute_recommendation") ;;
  emit (Column 2)
    (Metric "↳ Database & Compute" (Dollars (database + compute_recommendation))
       default_delta_color None) ;;;

  emit Main (Markdown "---").

(** Lines 114-152: the call of [calculate_financials] and the page. *)
Definition results_page
    (mau : Z) (dau_percent upload_percent video_length_sec
     sub_price sub_percent ad_rpm data_consumption_gb : R) : script unit :=
  financials <~ lift (calculate_financials mau dau_percent upload_percent
                        video_length_sec sub_price sub_percent ad_rpm
                        data_consumption_gb) ;;
  main_panel financials.

(** ** The sidebar sliders (lines 95-111)

    [st.slider(label, min, max, value, step)] returns a number between
    [min] and [max]: the initial [value], or a point [min + k * step] of the
    step grid once the user has moved the handle. *)
Definition slider_value (lo hi initial step x : R) : Prop :=
  lo <= x <= hi /\
  (x = initial \/ exists k : Z, (0 <= k)%Z /\ x = lo + IZR k * step).

Definition sidebar_values
    (mau : Z) (dau_percent upload_percent video_length_sec
     sub_price sub_percent ad_rpm data_consumption_gb : R) : Prop :=
  slider_value 0 20000000 1000000 100000 (IZR mau) /\
  slider_value 5 50 20 1 dau_percent /\
  slider_value 0.1 20.0 0.7 0.1 data_consumption_gb /\
  slider_value 1 20 5 1 upload_percent /\
  slider_value 5 120 30 5 video_length_sec /\
  slider_value 0.0 30.0 7.99 0.50 sub_price /\
  slider_value 0.25 40.0 2.0 0.25 sub_percent /\
  slider_value 0.04 0.25 0.10 0.01 ad_rpm.

(** The trace of [main_panel] when its five lookups succeed. *)
Definition panel_trace (r : report) (tot mp sd db cr : R) : list event :=
  [ (Main, Header "Financial Summary");
    (Main, Metric "Net Monthly Profit (Revenue - Costs)"
             (Dollars (net_profit r)) (profit_color (net_profit r))
             (Some "Positive numbers indicate profit; negative numbers indicate loss."%string));
    (Main, Markdown "---");
    (Main, Columns 2);
    (Column 1, Subheader "Revenue Breakdown");
    (Column 1, Metric "Total Monthly Revenue" (Dollars (total_revenue r))
                 default_delta_color None);
    (Column 1, Metric "↳ Subscription Revenue"
                 (Dollars (subscription_revenue r)) default_delta_color None);
    (Column 1, Metric "↳ Ad Revenue" (Dollars (ad_revenue r))
                 default_delta_color None);
    (Column 1, Info (ad_eligibility_message r));
    (Column 2, Subheader "Cost Breakdown");
    (Column 2, Metric "Total Monthly Costs" (Dollars tot)
                 default_delta_color None);
    (Column 2, Metric "↳ Media Processing & AI" (Dollars mp)
                 default_delta_color None);
    (Column 2, Metric "↳ Storage & Delivery" (Dollars sd)
                 default_delta_color None);
    (Column 2, Metric "↳ Database & Compute" (Dollars (db + cr))
                 default_delta_color None);
    (Main, Markdown "---") ]%string.

(** The report at [mau == 0]. *)
Definition zero_report : report :=
  {| costs := [("media_processing", 0); ("storage_delivery", 0);
               ("database", 0); ("compute_recommendation", 0);
               ("devops", 0); ("total", 0)]%string;
     subscription_revenue := 0;
     ad_revenue := 0;
     total_revenue := 0;
     net_profit := 0;
     ad_eligibility_message := msg_not_eligible |}.

(** * Properties *)

(** ** The primitives where they succeed *)

Lemma py_div_ok (x y : R) : y <> 0 -> py_div x y = Ok (x / y).
Proof.
  intros Hy. unfold py_div.
  destruct (Req_dec_T y 0) as [E | _]; [contradiction | reflexivity].
Qed.

Lemma math_log10_ok (x : R) : 0 < x -> math_log10 x = Ok (ln x / ln 10).
Proof.
  intros Hx. unfold math_log10.
  destruct (Rlt_dec 0 x) as [_ | N]; [reflexivity | contradiction].
Qed.

Lemma math_log10_domain (x : R) : x <= 0 -> math_log10 x = Raise ValueError.
Proof.
  intros Hx. unfold math_log10.
  destruct (Rlt_dec 0 x) as [P | _]; [lra | reflexivity].
Qed.

Lemma py_pow_pos (x y : R) : 0 < x -> py_pow x y = Ok (Rpower x y).
Proof.
  intros Hx. unfold py_pow.
  destruct (Rlt_dec 0 x) as [_ | N]; [reflexivity | contradiction].
Qed.

Lemma ln_gt_1 (x : R) : 1 < x -> 0 < ln x.
Proof. intros Hx. rewrite <- ln_1. apply ln_increasing; lra. Qed.

Lemma log10_100000_pos : 0 < ln 100000 / ln 10.
Proof. apply Rdiv_lt_0_compat; apply ln_gt_1; lra. Qed.

(** ** The steps against their closed forms *)

Lemma scale_factor_ok (mau : Z) :
  (0 <= mau)%Z -> scale_factor mau = Ok (scale_factor_value mau).
Proof.
  intros Hm. unfold scale_factor, scale_factor_value.
  assert (0 < IZR (mau + 1)) by (apply IZR_lt; lia).
  rewrite math_log10_ok by assumption. cbn [bind].
  rewrite math_log10_ok by lra. cbn [bind].
  apply py_div_ok. pose proof log10_100000_pos. lra.
Qed.

Lemma scale_factor_domain (mau : Z) :
  (mau < 0)%Z -> scale_factor mau = Raise ValueError.
Proof.
  intros Hm. unfold scale_factor.
  assert (IZR (mau + 1) <= 0) by (apply IZR_le; lia).
  rewrite math_log10_domain by assumption. reflexivity.
Qed.

Lemma scale_factor_value_pos (mau : Z) :
  (1 <= mau)%Z -> 0 < scale_factor_value mau.
Proof.
  intros Hm. unfold scale_factor_value.
  assert (2 <= IZR (mau + 1)) by (apply IZR_le; lia).
  apply Rdiv_lt_0_compat; [| apply log10_100000_pos].
  apply Rdiv_lt_0_compat; apply ln_gt_1; lra.
Qed.

Lemma scale_factor_value_mono (m1 m2 : Z) :
  (0 <= m1 <= m2)%Z -> scale_factor_value m1 <= scale_factor_value m2.
Proof.
  intros [H1 H2]. unfold scale_factor_value.
  assert (0 < IZR (m1 + 1)) by (apply IZR_lt; lia).
  assert (IZR (m1 + 1) <= IZR (m2 + 1)) as [Hlt | Heq] by (apply IZR_le; lia).
  - pose proof (ln_increasing _ _ H Hlt) as Hln.
    pose proof log10_100000_pos as H5.
    assert (0 < ln 10) as H10 by (apply ln_gt_1; lra).
    apply Rmult_le_compat_r; [left; apply Rinv_0_lt_compat; exact H5 |].
    apply Rmult_le_compat_r; [left; apply Rinv_0_lt_compat; exact H10 | lra].
  - rewrite Heq. lra.
Qed.

(** [gb_per_video] never raises. *)
Lemma gb_per_video_ok (v : R) : gb_per_video v = Ok (v / 30 * 15 / 1024).
Proof.
  unfold gb_per_video. rewrite py_div_ok by lra. cbn [bind].
  apply py_div_ok. lra.
Qed.

Lemma views_per_user_ok (v g : R) :
  views_per_user v g = Ok (views_per_user_value v g).
Proof.
  unfold views_per_user, views_per_user_value.
  rewrite gb_per_video_ok. cbn [bind].
  destruct (Rlt_dec 0 (v / 30 * 15 / 1024)) as [P | N]; [| reflexivity].
  apply py_div_ok. lra.
Qed.

Lemma total_monthly_impressions_ok (mau : Z) (v g : R) :
  total_monthly_impressions mau v g = Ok (IZR mau * views_per_user_value v g).
Proof.
  unfold total_monthly_impressions. rewrite views_per_user_ok. reflexivity.
Qed.

(** ** The costs dict *)

(** The five assignments of lines 32-47 followed by line 48. *)
Lemma costs_build (mp sd db cr dv : R) :
  let c5 := dict_set (dict_set (dict_set (dict_set (dict_set []
              "media_processing" mp) "storage_delivery" sd) "database" db)
              "compute_recommendation" cr) "devops" dv in
  dict_set c5 "total" (py_sum (dict_values c5)) =
  [("media_processing", mp); ("storage_delivery", sd); ("database", db);
   ("compute_recommendation", cr); ("devops", dv);
   ("total", py_sum [mp; sd; db; cr; dv])]%string.
Proof. reflexivity. Qed.

Lemma py_sum_5 (mp sd db cr dv : R) :
  py_sum [mp; sd; db; cr; dv] = mp + sd + db + cr + dv.
Proof. unfold py_sum. cbn [fold_left]. lra. Qed.

Lemma cost_calculation_zero (d u v g : R) :
  cost_calculation 0 d u v g = Ok (costs_value 0 d u v g).
Proof. reflexivity. Qed.

Lemma cost_calculation_pos (mau : Z) (d u v g : R) :
  (1 <= mau)%Z ->
  cost_calculation mau d u v g = Ok (costs_value mau d u v g).
Proof.
  intros Hm. unfold cost_calculation, costs_value.
  destruct (Z.eqb_spec mau 0) as [E | _]; [lia |].
  repeat (rewrite py_div_ok by lra; cbn [bind]).
  rewrite scale_factor_ok by lia. cbn [bind].
  pose proof (scale_factor_value_pos mau Hm) as Hs.
  rewrite !py_pow_pos by assumption. cbn [bind].
  rewrite costs_build, py_sum_5. reflexivity.
Qed.

Lemma cost_calculation_ok (mau : Z) (d u v g : R) :
  (0 <= mau)%Z ->
  cost_calculation mau d u v g = Ok (costs_value mau d u v g).
Proof.
  intros Hm. destruct (Z.eq_dec mau 0) as [-> | Hne].
  - apply cost_calculation_zero.
  - apply cost_calculation_pos. lia.
Qed.

Lemma cost_calculation_domain (mau : Z) (d u v g : R) :
  (mau < 0)%Z -> cost_calculation mau d u v g = Raise ValueError.
Proof.
  intros Hm. unfold cost_calculation.
  destruct (Z.eqb_spec mau 0) as [E | _]; [lia |].
  repeat (rewrite py_div_ok by lra; cbn [bind]).
  rewrite scale_factor_domain by assumption. reflexivity.
Qed.

(** ** The whole function *)

(** The revenue half (lines 50-82) never raises on its own: the function
    is the cost calculation, the lookup of ["total"], and a report. *)
Lemma calculate_financials_unfold (mau : Z) (d u v price sp ad_rpm g : R) :
  calculate_financials mau d u v price sp ad_rpm g =
  (cs <- cost_calculation mau d u v g ;;
   tot <- py_getitem cs "total" ;;
   Ok (report_value mau v price sp ad_rpm g cs tot)).
Proof.
  unfold calculate_financials, report_value, ad_value.
  destruct (cost_calculation mau d u v g) as [cs | e]; [| reflexivity].
  cbn [bind]. rewrite py_div_ok by lra. cbn [bind].
  rewrite total_monthly_impressions_ok. cbn [bind].
  change (IZR AD_IMPRESSION_THRESHOLD) with 2000000.
  destruct (Rle_dec 2000000 (IZR mau * views_per_user_value v g)) as [P | N].
  - rewrite py_div_ok by lra. cbn [bind fst snd].
    destruct (py_getitem cs "total"); reflexivity.
  - cbn [bind fst snd]. destruct (py_getitem cs "total"); reflexivity.
Qed.

Lemma costs_value_total (mau : Z) (d u v g : R) :
  py_getitem (costs_value mau d u v g) "total" =
  Ok (if (mau =? 0)%Z then 0 else total_value mau d u v g).
Proof.
  unfold costs_value. destruct (mau =? 0)%Z; reflexivity.
Qed.

Lemma calculate_financials_ok (mau : Z) (d u v price sp ad_rpm g : R) :
  (0 <= mau)%Z ->
  calculate_financials mau d u v price sp ad_rpm g =
  Ok (report_value mau v price sp ad_rpm g (costs_value mau d u v g)
        (if (mau =? 0)%Z then 0 else total_value mau d u v g)).
Proof.
  intros Hm. rewrite calculate_financials_unfold.
  rewrite cost_calculation_ok by assumption. cbn [bind].
  rewrite costs_value_total. reflexivity.
Qed.

Lemma calculate_financials_domain (mau : Z) (d u v price sp ad_rpm g : R) :
  (mau < 0)%Z ->
  calculate_financials mau d u v price sp ad_rpm g = Raise ValueError.
Proof.
  intros Hm. rewrite calculate_financials_unfold.
  rewrite cost_calculation_domain by assumption. reflexivity.
Qed.

(** Whatever is returned is the closed form, at a non-negative [mau]. *)
Lemma calculate_financials_inv (mau : Z) (d u v price sp ad_rpm g : R) (r : report) :
  calculate_financials mau d u v price sp ad_rpm g = Ok r ->
  (0 <= mau)%Z /\
  r = report_value mau v price sp ad_rpm g (costs_value mau d u v g)
        (if (mau =? 0)%Z then 0 else total_value mau d u v g).
Proof.
  intros H. destruct (Z_lt_le_dec mau 0) as [Hneg | Hpos].
  - rewrite calculate_financials_domain in H by assumption. discriminate.
  - rewrite calculate_financials_ok in H by assumption.
    injection H as <-. split; [assumption | reflexivity].
Qed.

(** ** The slider defaults *)

Lemma default_report_ok :
  calculate_financials 1000000 20 5 30 7.99 2 0.10 0.7 = Ok default_report.
Proof. rewrite calculate_financials_ok by lia. reflexivity. Qed.

Lemma msg_not_eligible_text :
  msg_not_eligible =
  "⚠️ Platform is NOT eligible for AdSense. Needs >2,000,000 monthly views."%string.
Proof. reflexivity. Qed.

Lemma messages_differ : msg_eligible <> msg_not_eligible.
Proof. rewrite msg_not_eligible_text. unfold msg_eligible. discriminate. Qed.

(** ** Claims *)

(** C1: in every report the function returns, the ["total"] entry of the
    costs dict is the sum of the five component entries
    (media_processing, storage_delivery, database, compute_recommendation,
    devops), in the [mau == 0] branch and in the [mau > 0] branch alike. *)
Theorem costs_total_is_sum (mau : Z) (d u v price sp ad_rpm g : R) (r : report) :
  calculate_financials mau d u v price sp ad_rpm g = Ok r ->
  exists mp sd db cr dv,
    cost_is r "media_processing" mp /\
    cost_is r "storage_delivery" sd /\
    cost_is r "database" db /\
    cost_is r "compute_recommendation" cr /\
    cost_is r "devops" dv /\
    cost_is r "total" (mp + sd + db + cr + dv).
Proof.
  intros H. apply calculate_financials_inv in H as [Hm ->].
  unfold cost_is, report_value, costs_value. cbn [costs].
  destruct (Z.eqb_spec mau 0) as [E | N].
  - exists 0, 0, 0, 0, 0. repeat split; try reflexivity.
    cbn. do 2 f_equal. lra.
  - exists (media_processing_value mau d u v), (storage_delivery_value mau d u g),
      (database_value mau), (compute_recommendation_value mau), (devops_value mau).
    repeat split; reflexivity.
Qed.

Lemma costs_total_is_sum_witness :
  exists mp sd db cr dv,
    cost_is default_report "media_processing" mp /\
    cost_is default_report "storage_delivery" sd /\
    cost_is default_report "database" db /\
    cost_is default_report "compute_recommendation" cr /\
    cost_is default_report "devops" dv /\
    cost_is default_report "total" (mp + sd + db + cr + dv).
Proof.
  exact (costs_total_is_sum 1000000 20 5 30 7.99 2 0.10 0.7 default_report
           default_report_ok).
Defined.

(** C2: in every report the function returns, total_revenue is
    subscription_revenue + ad_revenue, and net_profit is total_revenue
    minus the ["total"] entry of the costs dict. *)
Theorem revenue_and_profit_totals
    (mau : Z) (d u v price sp ad_rpm g : R) (r : report) :
  calculate_financials mau d u v price sp ad_rpm g = Ok r ->
  total_revenue r = subscription_revenue r + ad_revenue r /\
  exists tot, cost_is r "total" tot /\ net_profit r = total_revenue r - tot.
Proof.
  intros H. apply calculate_financials_inv in H as [Hm ->].
  split; [reflexivity |].
  exists (if (mau =? 0)%Z then 0 else total_value mau d u v g).
  split; [| reflexivity].
  unfold cost_is, report_value, costs_value. cbn [costs].
  destruct (mau =? 0)%Z; reflexivity.
Qed.

Lemma revenue_and_profit_totals_witness :
  total_revenue default_report
  = subscription_revenue default_report + ad_revenue default_report /\
  exists tot, cost_is default_report "total" tot /\
              net_profit default_report = total_revenue default_report - tot.
Proof.
  exact (revenue_and_profit_totals 1000000 20 5 30 7.99 2 0.10 0.7
           default_report default_report_ok).
Defined.

(** Inputs that put total_monthly_impressions on the threshold and one
    impression below it: a 30 s video is 15 MB, so 15/1024 GB per user is
    one view per user. *)
Lemma one_view_per_user : views_per_user_value 30 (15 / 1024) = 1.
Proof.
  unfold views_per_user_value.
  destruct (Rlt_dec 0 (30 / 30 * 15 / 1024)) as [_ | N]; [field | lra].
Qed.

Lemma impressions_at_threshold :
  total_monthly_impressions 2000000 30 (15 / 1024) = Ok 2000000.
Proof.
  rewrite total_monthly_impressions_ok, one_view_per_user. f_equal. lra.
Qed.

Lemma impressions_below_threshold :
  total_monthly_impressions 1999999 30 (15 / 1024) = Ok 1999999.
Proof.
  rewrite total_monthly_impressions_ok, one_view_per_user. f_equal. lra.
Qed.

(** C3: with total_monthly_impressions the value of line 60, a returned
    report has ad_revenue = impressions / 1000 * ad_rpm and the eligible
    message when impressions >= 2,000,000, and ad_revenue = 0 and the
    not-eligible message otherwise.  At exactly 2,000,000 impressions and
    ad_rpm in [0.04, 0.25] the ad revenue is positive; at 1,999,999 it is
    0 with the not-eligible message. *)
Theorem ad_revenue_threshold
    (mau : Z) (d u v price sp ad_rpm g : R) (r : report) :
  calculate_financials mau d u v price sp ad_rpm g = Ok r ->
  exists impressions,
    total_monthly_impressions mau v g = Ok impressions /\
    (2000000 <= impressions ->
       ad_revenue r = impressions / 1000 * ad_rpm /\
       ad_eligibility_message r = msg_eligible) /\
    (impressions < 2000000 ->
       ad_revenue r = 0 /\ ad_eligibility_message r = msg_not_eligible) /\
    (impressions = 2000000 -> 0.04 <= ad_rpm <= 0.25 -> ad_revenue r > 0) /\
    (impressions = 1999999 ->
       ad_revenue r = 0 /\ ad_eligibility_message r = msg_not_eligible).
Proof.
  intros H. apply calculate_financials_inv in H as [Hm ->].
  exists (IZR mau * views_per_user_value v g).
  split; [apply total_monthly_impressions_ok |].
  unfold report_value, ad_value.
  cbn [ad_revenue ad_eligibility_message].
  destruct (Rle_dec 2000000 (IZR mau * views_per_user_value v g)) as [P | N];
    cbn [fst snd].
  - split; [intros _; split; reflexivity |].
    split; [intros Hlt; lra |].
    split; [intros -> Hrpm; lra | intros Heq; lra].
  - split; [intros Hge; lra |].
    split; [intros _; split; reflexivity |].
    split; [intros Heq; lra | intros _; split; reflexivity].
Qed.

Lemma ad_revenue_threshold_witness :
  calculate_financials 2000000 20 5 30 7.99 2 0.10 (15 / 1024)
  = Ok threshold_report /\
  ad_revenue threshold_report > 0 /\
  ad_eligibility_message threshold_report = msg_eligible.
Proof.
  assert (calculate_financials 2000000 20 5 30 7.99 2 0.10 (15 / 1024)
          = Ok threshold_report) as Hr
    by (rewrite calculate_financials_ok by lia; reflexivity).
  split; [exact Hr |].
  destruct (ad_revenue_threshold 2000000 20 5 30 7.99 2 0.10 (15 / 1024)
              threshold_report Hr) as (n & Hn & Hge & _ & Hat & _).
  rewrite impressions_at_threshold in Hn. injection Hn as <-.
  split; [apply Hat; [reflexivity | lra] | apply Hge; lra].
Defined.

(** C4: with monthlyActiveUsers = 0 the function returns a report whose six
    cost entries (media_processing, storage_delivery, database,
    compute_recommendation, devops, total) are all 0 and whose
    subscription_revenue is 0, whatever the other seven inputs are. *)
Theorem zero_mau_zero_costs (d u v price sp ad_rpm g : R) :
  exists r,
    calculate_financials 0 d u v price sp ad_rpm g = Ok r /\
    cost_is r "media_processing" 0 /\
    cost_is r "storage_delivery" 0 /\
    cost_is r "database" 0 /\
    cost_is r "compute_recommendation" 0 /\
    cost_is r "devops" 0 /\
    cost_is r "total" 0 /\
    subscription_revenue r = 0.
Proof.
  eexists. split; [apply calculate_financials_ok; lia |].
  unfold cost_is, report_value. cbn [costs subscription_revenue].
  repeat (split; [reflexivity |]).
  change (IZR 0) with 0. lra.
Qed.

(** C9: with monthlyActiveUsers = 0 the impressions of line 60 are 0, below
    the threshold, so the report also has ad_revenue = 0, total_revenue = 0,
    net_profit = 0 and the not-eligible message, whatever the other inputs
    are. *)
Theorem zero_mau_zero_revenue (d u v price sp ad_rpm g : R) :
  exists r,
    calculate_financials 0 d u v price sp ad_rpm g = Ok r /\
    total_monthly_impressions 0 v g = Ok 0 /\
    ad_revenue r = 0 /\
    total_revenue r = 0 /\
    net_profit r = 0 /\
    ad_eligibility_message r = msg_not_eligible.
Proof.
  eexists. split; [apply calculate_financials_ok; lia |].
  assert (IZR 0 * views_per_user_value v g = 0) as Hz
    by (change (IZR 0) with 0; lra).
  split; [rewrite total_monthly_impressions_ok, Hz; reflexivity |].
  unfold report_value, ad_value. rewrite Hz.
  cbn [ad_revenue total_revenue net_profit ad_eligibility_message].
  destruct (Rle_dec 2000000 0) as [P | N]; [lra |].
  cbn [fst snd Z.eqb]. change (IZR 0) with 0.
  repeat split; lra.
Qed.

(** ** The scale factor around 100,000 users *)

Lemma scale_factor_value_99999 : scale_factor_value 99999 = 1.
Proof.
  unfold scale_factor_value. change (IZR (99999 + 1)) with 100000.
  pose proof log10_100000_pos as H.
  set (x := ln 100000 / ln 10) in *. field. lra.
Qed.

Lemma exp_10_lt_100000 : exp 10 < 100000.
Proof.
  pose proof exp_le_3 as H3. pose proof (exp_pos 1) as H0.
  assert (exp 2 = exp 1 * exp 1) as E2 by (rewrite <- exp_plus; f_equal; lra).
  assert (exp 4 = exp 2 * exp 2) as E4 by (rewrite <- exp_plus; f_equal; lra).
  assert (exp 8 = exp 4 * exp 4) as E8 by (rewrite <- exp_plus; f_equal; lra).
  assert (exp 10 = exp 8 * exp 2) as E10 by (rewrite <- exp_plus; f_equal; lra).
  assert (0 < exp 2 <= 9) by nra.
  assert (0 < exp 4 <= 81) by nra.
  assert (0 < exp 8 <= 6561) by nra.
  nra.
Qed.

Lemma ln_100000_gt_10 : 10 < ln 100000.
Proof.
  rewrite <- (ln_exp 10). apply ln_increasing; [apply exp_pos |].
  apply exp_10_lt_100000.
Qed.

Lemma ln_100001_bounds :
  ln 100000 < ln 100001 < ln 100000 + 1 / 100000.
Proof.
  split; [apply ln_increasing; lra |].
  rewrite <- (ln_exp (1 / 100000)).
  rewrite <- ln_mult by (try apply exp_pos; lra).
  apply ln_increasing; [lra |].
  pose proof (exp_ineq1 (1 / 100000)) as Hexp.
  assert (1 + 1 / 100000 < exp (1 / 100000)) by (apply Hexp; lra).
  lra.
Qed.

Lemma scale_factor_value_100000 :
  1 < scale_factor_value 100000 < 1 + 1 / 1000000.
Proof.
  unfold scale_factor_value. change (IZR (100000 + 1)) with 100001.
  pose proof ln_100000_gt_10 as Hb. pose proof ln_100001_bounds as [Ha1 Ha2].
  assert (0 < ln 10) as Hc by (apply ln_gt_1; lra).
  replace (ln 100001 / ln 10 / (ln 100000 / ln 10))
    with (ln 100001 / ln 100000) by (field; lra).
  split.
  - apply Rmult_lt_reg_r with (ln 100000); [lra |].
    unfold Rdiv. rewrite Rmult_assoc, Rinv_l by lra. lra.
  - apply Rmult_lt_reg_r with (ln 100000); [lra |].
    unfold Rdiv at 1. rewrite Rmult_assoc, Rinv_l by lra. nra.
Qed.

(** C5, as the claim states it, fails: at mau = 99,999 the scale factor is
    exactly 1, not just under 1, and at mau = 100,000 it is not 1. *)
Lemma scale_factor_anchor_counterexample :
  ~ ((exists s, scale_factor 99999 = Ok s /\ s < 1) /\
     scale_factor 100000 = Ok 1).
Proof.
  intros [(s & Hs & Hlt) _].
  rewrite scale_factor_ok, scale_factor_value_99999 in Hs by lia.
  injection Hs as <-. lra.
Qed.

(** C5, amended: scale_factor is log10(mau + 1) / log10(100000) for every
    mau >= 0; because of the + 1 it is exactly 1 at mau = 99,999, and at
    mau = 100,000 it lies strictly between 1 and 1.000001. *)
Theorem scale_factor_anchor :
  (forall mau, (0 <= mau)%Z ->
     scale_factor mau = Ok (ln (IZR (mau + 1)) / ln 10 / (ln 100000 / ln 10))) /\
  scale_factor 99999 = Ok 1 /\
  (exists s, scale_factor 100000 = Ok s /\ 1 < s < 1 + 1 / 1000000).
Proof.
  split; [intros mau Hm; apply scale_factor_ok; assumption |].
  split.
  - rewrite scale_factor_ok, scale_factor_value_99999 by lia. reflexivity.
  - exists (scale_factor_value 100000).
    split; [apply scale_factor_ok; lia | apply scale_factor_value_100000].
Qed.

Lemma scale_factor_anchor_witness :
  (0 <= 1000000)%Z /\
  scale_factor 1000000
  = Ok (ln (IZR (1000000 + 1)) / ln 10 / (ln 100000 / ln 10)).
Proof.
  split; [lia |].
  apply (proj1 scale_factor_anchor 1000000%Z). lia.
Defined.

(** C6, as the claim states it, fails: with monthlyActiveUsers = -1 line 44
    evaluates math.log10(0), which raises ValueError, and no report is
    returned. *)
Lemma negative_mau_counterexample :
  calculate_financials (-1) 20 5 30 7.99 2 0.10 0.7 = Raise ValueError /\
  ~ (exists r, calculate_financials (-1) 20 5 30 7.99 2 0.10 0.7 = Ok r).
Proof.
  assert (calculate_financials (-1) 20 5 30 7.99 2 0.10 0.7 = Raise ValueError)
    as H by (apply calculate_financials_domain; lia).
  split; [exact H |].
  intros [r Hr]. rewrite H in Hr. discriminate.
Qed.

(** C6, amended: with monthlyActiveUsers an int that converts to a float
    (at most 10^308 in absolute value, which covers the slider range
    0..20,000,000), the function returns a report when
    monthlyActiveUsers >= 0, whatever the other seven numbers are (they are
    not validated and go through the arithmetic), and math.log10 raises
    ValueError on line 44 when monthlyActiveUsers is negative. *)
Theorem total_on_nonnegative_mau (mau : Z) (d u v price sp ad_rpm g : R) :
  ((0 <= mau <= INT_AS_FLOAT_MAX)%Z ->
     exists r, calculate_financials mau d u v price sp ad_rpm g = Ok r) /\
  ((- INT_AS_FLOAT_MAX <= mau < 0)%Z ->
     calculate_financials mau d u v price sp ad_rpm g = Raise ValueError).
Proof.
  split.
  - intros [Hm _]. eexists. apply calculate_financials_ok. assumption.
  - intros [_ Hm]. apply calculate_financials_domain. assumption.
Qed.

Lemma total_on_nonnegative_mau_witness :
  ((0 <= 20000000 <= INT_AS_FLOAT_MAX)%Z /\
   exists r, calculate_financials 20000000 (-20) (-5) (-30) (-7.99) (-2)
               (-0.10) (-0.7) = Ok r) /\
  ((- INT_AS_FLOAT_MAX <= -5 < 0)%Z /\
   calculate_financials (-5) 20 5 30 7.99 2 0.10 0.7 = Raise ValueError).
Proof.
  split; (split; [unfold INT_AS_FLOAT_MAX; lia |]).
  - apply (proj1 (total_on_nonnegative_mau 20000000 (-20) (-5) (-30) (-7.99)
                    (-2) (-0.10) (-0.7))). unfold INT_AS_FLOAT_MAX. lia.
  - apply (proj2 (total_on_nonnegative_mau (-5) 20 5 30 7.99 2 0.10 0.7)).
    unfold INT_AS_FLOAT_MAX. lia.
Defined.

(** C7: no input makes the function raise ZeroDivisionError; the division
    of line 59 is guarded, views_per_user being 0 whenever
    gb_per_video <= 0; and for every valid video_length_sec, that is from
    the slider's minimum 5 upwards, gb_per_video > 0, so that the division
    is the branch taken. *)
Theorem division_is_guarded :
  (forall (mau : Z) (d u v price sp ad_rpm g : R),
     calculate_financials mau d u v price sp ad_rpm g
     <> Raise ZeroDivisionError) /\
  (forall v g gb,
     gb_per_video v = Ok gb -> gb <= 0 -> views_per_user v g = Ok 0) /\
  (forall v g,
     5 <= v ->
     exists gb, gb_per_video v = Ok gb /\ 0 < gb /\
                views_per_user v g = Ok (g / gb)).
Proof.
  split; [| split].
  - intros mau d u v price sp ad_rpm g.
    destruct (Z_lt_le_dec mau 0) as [Hneg | Hpos].
    + rewrite calculate_financials_domain by assumption. discriminate.
    + rewrite calculate_financials_ok by assumption. discriminate.
  - intros v g gb Hgb Hle.
    unfold views_per_user. rewrite Hgb. cbn [bind].
    destruct (Rlt_dec 0 gb) as [P | N]; [lra | reflexivity].
  - intros v g Hv. exists (v / 30 * 15 / 1024).
    split; [apply gb_per_video_ok |].
    assert (0 < v / 30 * 15 / 1024) as Hgb by lra.
    split; [exact Hgb |].
    rewrite views_per_user_ok. unfold views_per_user_value.
    destruct (Rlt_dec 0 (v / 30 * 15 / 1024)) as [_ | N];
      [reflexivity | contradiction].
Qed.

Lemma division_is_guarded_witness :
  (gb_per_video 0 = Ok 0 /\ 0 <= 0 /\ views_per_user 0 0.7 = Ok 0) /\
  (5 <= 30 /\
   exists gb, gb_per_video 30 = Ok gb /\ 0 < gb /\
              views_per_user 30 0.7 = Ok (0.7 / gb)).
Proof.
  assert (gb_per_video 0 = Ok 0) as H0
    by (rewrite gb_per_video_ok; f_equal; lra).
  split.
  - split; [exact H0 |]. split; [lra |].
    apply (proj1 (proj2 division_is_guarded) 0 0.7 0 H0). lra.
  - split; [lra |].
    apply (proj2 (proj2 division_is_guarded) 30 0.7). lra.
Defined.

(** ** Sign and growth of the closed forms *)

Lemma Rdiv_nonneg (x y : R) : 0 <= x -> 0 < y -> 0 <= x / y.
Proof.
  intros Hx Hy. apply Rmult_le_pos; [assumption |].
  left. apply Rinv_0_lt_compat. assumption.
Qed.

Ltac nonneg :=
  repeat first
    [ assumption
    | lra
    | apply Rplus_le_le_0_compat
    | apply Rdiv_nonneg
    | apply Rmult_le_pos ].

Lemma IZR_nonneg (mau : Z) : (0 <= mau)%Z -> 0 <= IZR mau.
Proof. intros H. apply (IZR_le 0). assumption. Qed.

Lemma Rpower_nonneg (x y : R) : 0 <= Rpower x y.
Proof. unfold Rpower. left. apply exp_pos. Qed.

Lemma media_processing_value_nonneg (mau : Z) (d u v : R) :
  (0 <= mau)%Z -> 0 <= d -> 0 <= u -> 0 <= v ->
  0 <= media_processing_value mau d u v.
Proof.
  intros Hm Hd Hu Hv. apply IZR_nonneg in Hm.
  unfold media_processing_value, PRICE_PER_VIDEO_MINUTE_TRANSCODE,
    PRICE_PER_1000_CHARS_AI.
  cbv zeta. nonneg.
Qed.

Lemma storage_delivery_value_linear (mau : Z) (d u g : R) :
  storage_delivery_value mau d u g = IZR mau * storage_delivery_rate d u g.
Proof. unfold storage_delivery_value, storage_delivery_rate. cbv zeta. field. Qed.

Lemma storage_delivery_rate_nonneg (d u g : R) :
  0 <= d -> 0 <= u -> 0 <= g -> 0 <= storage_delivery_rate d u g.
Proof.
  intros Hd Hu Hg.
  unfold storage_delivery_rate, PRICE_PER_GB_STORAGE, PRICE_PER_MILLION_READ_OPS.
  nonneg.
Qed.

Lemma storage_delivery_value_mono (m1 m2 : Z) (d u g : R) :
  (m1 <= m2)%Z -> 0 <= d -> 0 <= u -> 0 <= g ->
  storage_delivery_value m1 d u g <= storage_delivery_value m2 d u g.
Proof.
  intros Hm Hd Hu Hg. rewrite !storage_delivery_value_linear.
  apply Rmult_le_compat_r; [apply storage_delivery_rate_nonneg; assumption |].
  apply IZR_le. assumption.
Qed.

Lemma Rpower_scale_factor_mono (m1 m2 : Z) (e : R) :
  (1 <= m1 <= m2)%Z -> 0 <= e ->
  Rpower (scale_factor_value m1) e <= Rpower (scale_factor_value m2) e.
Proof.
  intros [H1 H2] He. apply Rle_Rpower_l; [assumption |].
  split; [apply scale_factor_value_pos; assumption |].
  apply scale_factor_value_mono. lia.
Qed.

(** The entries of the costs dict, by key. *)
Lemma costs_value_entries (mau : Z) (d u v g : R) :
  let cs := costs_value mau d u v g in
  dict_get cs "media_processing" = Some (branch mau (media_processing_value mau d u v)) /\
  dict_get cs "storage_delivery" = Some (branch mau (storage_delivery_value mau d u g)) /\
  dict_get cs "database" = Some (branch mau (database_value mau)) /\
  dict_get cs "compute_recommendation" = Some (branch mau (compute_recommendation_value mau)) /\
  dict_get cs "devops" = Some (branch mau (devops_value mau)) /\
  dict_get cs "total" = Some (branch mau (total_value mau d u v g)).
Proof.
  unfold costs_value, branch. destruct (mau =? 0)%Z; repeat split; reflexivity.
Qed.

(** A cost that is non-negative and non-decreasing from mau = 1 on is
    non-decreasing from mau = 0 on, where it is 0. *)
Lemma branch_mono (f : Z -> R) (m1 m2 : Z) :
  (0 <= m1 <= m2)%Z ->
  (forall m, (1 <= m)%Z -> 0 <= f m) ->
  ((1 <= m1)%Z -> f m1 <= f m2) ->
  branch m1 (f m1) <= branch m2 (f m2).
Proof.
  intros [H1 H2] Hpos Hmono. unfold branch.
  destruct (Z.eqb_spec m1 0) as [E1 | N1]; destruct (Z.eqb_spec m2 0) as [E2 | N2].
  - lra.
  - apply Hpos. lia.
  - lia.
  - apply Hmono. lia.
Qed.

Lemma database_value_nonneg (mau : Z) : 0 <= database_value mau.
Proof.
  unfold database_value. apply Rmult_le_pos; [lra | apply Rpower_nonneg].
Qed.

Lemma compute_recommendation_value_nonneg (mau : Z) :
  0 <= compute_recommendation_value mau.
Proof.
  unfold compute_recommendation_value.
  apply Rmult_le_pos; [lra | apply Rpower_nonneg].
Qed.

Lemma devops_value_pos (mau : Z) : (1 <= mau)%Z -> 0 < devops_value mau.
Proof.
  intros Hm. unfold devops_value.
  pose proof (scale_factor_value_pos mau Hm). lra.
Qed.

Lemma branch_nonneg (mau : Z) (x : R) : 0 <= x -> 0 <= branch mau x.
Proof. intros Hx. unfold branch. destruct (mau =? 0)%Z; lra. Qed.

(** C8: with the other inputs fixed, raising monthlyActiveUsers within its
    domain (integers >= 0) never lowers database, compute_recommendation or
    devops; nor storage_delivery, the percentages and the data consumption
    being in their domains (non-negative); nor subscription_revenue, the
    price and the subscriber percentage being in theirs (non-negative). *)
Theorem mau_monotone (m1 m2 : Z) (d u v price sp ad_rpm g : R) :
  (0 <= m1 <= m2)%Z ->
  exists r1 r2,
    calculate_financials m1 d u v price sp ad_rpm g = Ok r1 /\
    calculate_financials m2 d u v price sp ad_rpm g = Ok r2 /\
    cost_le "database" r1 r2 /\
    cost_le "compute_recommendation" r1 r2 /\
    cost_le "devops" r1 r2 /\
    (0 <= d -> 0 <= u -> 0 <= g -> cost_le "storage_delivery" r1 r2) /\
    (0 <= price -> 0 <= sp ->
     subscription_revenue r1 <= subscription_revenue r2).
Proof.
  intros Hm.
  assert (IZR m1 <= IZR m2) as HR by (apply IZR_le; lia).
  do 2 eexists.
  split; [apply calculate_financials_ok; lia |].
  split; [apply calculate_financials_ok; lia |].
  pose proof (costs_value_entries m1 d u v g) as (_ & Hsd1 & Hdb1 & Hcr1 & Hdv1 & _).
  pose proof (costs_value_entries m2 d u v g) as (_ & Hsd2 & Hdb2 & Hcr2 & Hdv2 & _).
  unfold cost_le, cost_is, report_value. cbn [costs subscription_revenue].
  split; [| split; [| split; [| split]]].
  - do 2 eexists. split; [exact Hdb1 | split; [exact Hdb2 |]].
    apply (branch_mono database_value); [assumption | |].
    + intros m _. apply database_value_nonneg.
    + intros H1. unfold database_value.
      apply Rmult_le_compat_l; [lra |].
      apply Rpower_scale_factor_mono; [lia | lra].
  - do 2 eexists. split; [exact Hcr1 | split; [exact Hcr2 |]].
    apply (branch_mono compute_recommendation_value); [assumption | |].
    + intros m _. apply compute_recommendation_value_nonneg.
    + intros H1. unfold compute_recommendation_value.
      apply Rmult_le_compat_l; [lra |].
      apply Rpower_scale_factor_mono; [lia | lra].
  - do 2 eexists. split; [exact Hdv1 | split; [exact Hdv2 |]].
    apply (branch_mono devops_value); [assumption | |].
    + intros m H1. left. apply devops_value_pos. assumption.
    + intros H1. unfold devops_value.
      pose proof (scale_factor_value_mono m1 m2 Hm). lra.
  - intros Hd Hu Hg.
    do 2 eexists. split; [exact Hsd1 | split; [exact Hsd2 |]].
    apply (branch_mono (fun m => storage_delivery_value m d u g));
      [assumption | |].
    + intros m H1. rewrite storage_delivery_value_linear.
      apply Rmult_le_pos;
        [apply IZR_nonneg; lia | apply storage_delivery_rate_nonneg; assumption].
    + intros _. apply storage_delivery_value_mono; [lia | assumption ..].
  - intros Hp Hs.
    apply Rmult_le_compat_r; [assumption |].
    apply Rmult_le_compat_r; [lra | assumption].
Qed.

Lemma mau_monotone_witness :
  (0 <= 100000 <= 1000000)%Z /\
  exists r1 r2,
    calculate_financials 100000 20 5 30 7.99 2 0.10 0.7 = Ok r1 /\
    calculate_financials 1000000 20 5 30 7.99 2 0.10 0.7 = Ok r2 /\
    cost_le "database" r1 r2 /\
    cost_le "compute_recommendation" r1 r2 /\
    cost_le "devops" r1 r2 /\
    cost_le "storage_delivery" r1 r2 /\
    subscription_revenue r1 <= subscription_revenue r2.
Proof.
  split; [lia |].
  destruct (mau_monotone 100000 1000000 20 5 30 7.99 2 0.10 0.7 ltac:(lia))
    as (r1 & r2 & H1 & H2 & Hdb & Hcr & Hdv & Hsd & Hsub).
  exists r1, r2.
  repeat (split; [assumption |]).
  split; [apply Hsd; lra | apply Hsub; lra].
Defined.

Lemma ad_value_nonneg (impressions ad_rpm : R) :
  0 <= ad_rpm -> 0 <= fst (ad_value impressions ad_rpm).
Proof.
  intros Hr. unfold ad_value.
  destruct (Rle_dec 2000000 impressions) as [P | N]; cbn [fst]; [| lra].
  apply Rmult_le_pos; [lra | assumption].
Qed.

Lemma loss_report_ok :
  calculate_financials 100000 5 1 120 0 0.25 0.04 0.1 = Ok loss_report.
Proof. rewrite calculate_financials_ok by lia. reflexivity. Qed.

Lemma loss_report_net_profit : net_profit loss_report < 0.
Proof.
  unfold loss_report, report_value, ad_value, views_per_user_value.
  cbn [net_profit].
  destruct (Rlt_dec 0 (120 / 30 * 15 / 1024)) as [_ | N]; [| lra].
  destruct (Rle_dec 2000000 (IZR 100000 * (0.1 / (120 / 30 * 15 / 1024))))
    as [P | _]; [lra |].
  cbn [fst].
  pose proof (media_processing_value_nonneg 100000 5 1 120).
  pose proof (storage_delivery_value_linear 100000 5 1 0.1) as Hl.
  pose proof (storage_delivery_rate_nonneg 5 1 0.1).
  pose proof (database_value_nonneg 100000).
  pose proof (compute_recommendation_value_nonneg 100000).
  pose proof (devops_value_pos 100000).
  assert (0 <= storage_delivery_value 100000 5 1 0.1)
    by (rewrite Hl; apply Rmult_le_pos; lra).
  unfold total_value.
  assert (0 <= media_processing_value 100000 5 1 120) by (apply H; lia || lra).
  assert (0 < devops_value 100000) by (apply H3; lia).
  lra.
Qed.

(** C10: for every input in the declared domains (monthlyActiveUsers >= 0,
    percentages, prices and data consumption non-negative,
    video_length_sec > 0) the function returns a report whose cost entries
    (media_processing, storage_delivery, database, compute_recommendation,
    devops, total) and whose subscription_revenue, ad_revenue and
    total_revenue are all non-negative; net_profit can be negative, as it
    is for a report inside the slider ranges. *)
Theorem report_nonneg :
  (forall (mau : Z) (d u v price sp ad_rpm g : R),
     (0 <= mau)%Z -> 0 <= d -> 0 <= u -> 0 < v ->
     0 <= price -> 0 <= sp -> 0 <= ad_rpm -> 0 <= g ->
     exists r,
       calculate_financials mau d u v price sp ad_rpm g = Ok r /\
       cost_nonneg "media_processing" r /\
       cost_nonneg "storage_delivery" r /\
       cost_nonneg "database" r /\
       cost_nonneg "compute_recommendation" r /\
       cost_nonneg "devops" r /\
       cost_nonneg "total" r /\
       0 <= subscription_revenue r /\
       0 <= ad_revenue r /\
       0 <= total_revenue r) /\
  (exists r,
     calculate_financials 100000 5 1 120 0 0.25 0.04 0.1 = Ok r /\
     net_profit r < 0).
Proof.
  split; [| exists loss_report; split;
              [apply loss_report_ok | apply loss_report_net_profit]].
  intros mau d u v price sp ad_rpm g Hm Hd Hu Hv Hp Hs Hr Hg.
  eexists. split; [apply calculate_financials_ok; assumption |].
  pose proof (costs_value_entries mau d u v g)
    as (Hmp & Hsd & Hdb & Hcr & Hdv & Htot).
  assert (0 <= media_processing_value mau d u v) as Pmp
    by (apply media_processing_value_nonneg; lra || assumption).
  assert (0 <= storage_delivery_value mau d u g) as Psd.
  { rewrite storage_delivery_value_linear.
    apply Rmult_le_pos;
      [apply IZR_nonneg; assumption
      | apply storage_delivery_rate_nonneg; assumption]. }
  pose proof (database_value_nonneg mau) as Pdb.
  pose proof (compute_recommendation_value_nonneg mau) as Pcr.
  assert (0 <= branch mau (devops_value mau)) as Pdv.
  { unfold branch. destruct (Z.eqb_spec mau 0) as [E | N]; [lra |].
    left. apply devops_value_pos. lia. }
  assert (0 <= branch mau (total_value mau d u v g)) as Ptot.
  { revert Pdv. unfold branch, total_value.
    destruct (mau =? 0)%Z; intros Pdv; lra. }
  assert (0 <= IZR mau * (sp / 100) * price) as Psub.
  { apply Rmult_le_pos; [| assumption].
    apply Rmult_le_pos; [apply IZR_nonneg; assumption | lra]. }
  pose proof (ad_value_nonneg (IZR mau * views_per_user_value v g) ad_rpm Hr)
    as Pad.
  unfold cost_nonneg, cost_is, report_value.
  cbn [costs subscription_revenue ad_revenue total_revenue].
  split; [eexists; split; [exact Hmp | apply branch_nonneg; exact Pmp] |].
  split; [eexists; split; [exact Hsd | apply branch_nonneg; exact Psd] |].
  split; [eexists; split; [exact Hdb | apply branch_nonneg; exact Pdb] |].
  split; [eexists; split; [exact Hcr | apply branch_nonneg; exact Pcr] |].
  split; [eexists; split; [exact Hdv | exact Pdv] |].
  split; [eexists; split; [exact Htot | exact Ptot] |].
  split; [exact Psub |]. split; [exact Pad | lra].
Qed.

Lemma report_nonneg_witness :
  exists r,
    calculate_financials 1000000 20 5 30 7.99 2 0.10 0.7 = Ok r /\
    cost_nonneg "media_processing" r /\
    cost_nonneg "storage_delivery" r /\
    cost_nonneg "database" r /\
    cost_nonneg "compute_recommendation" r /\
    cost_nonneg "devops" r /\
    cost_nonneg "total" r /\
    0 <= subscription_revenue r /\
    0 <= ad_revenue r /\
    0 <= total_revenue r.
Proof.
  apply (proj1 report_nonneg 1000000%Z 20 5 30 7.99 2 0.10 0.7);
    solve [lia | lra].
Defined.

(** * Further properties of calculate_financials *)

(** ** The shape of the costs dict *)

Lemma dict_get_absent (d : dict) (k : string) :
  ~ In k (map fst d) -> dict_get d k = None.
Proof.
  induction d as [| [k' v'] d IH]; intros Hk; [reflexivity |].
  cbn [dict_get]. destruct (String.eqb_spec k' k) as [E | N].
  - exfalso. apply Hk. left. exact E.
  - apply IH. intros Hin. apply Hk. right. exact Hin.
Qed.

Lemma costs_value_keys (mau : Z) (d u v g : R) :
  map fst (costs_value mau d u v g) = cost_keys.
Proof. unfold costs_value. destruct (mau =? 0)%Z; reflexivity. Qed.

(** X1: the costs dict of a returned report has exactly the six keys
    media_processing, storage_delivery, database, compute_recommendation,
    devops, total, in that order, in both branches of line 21; reading any
    other key raises KeyError. *)
Theorem costs_keys_exact
    (mau : Z) (d u v price sp ad_rpm g : R) (r : report) :
  calculate_financials mau d u v price sp ad_rpm g = Ok r ->
  map fst (costs r) = cost_keys /\
  (forall k, ~ In k cost_keys -> py_getitem (costs r) k = Raise KeyError).
Proof.
  intros H. apply calculate_financials_inv in H as [Hm ->].
  unfold report_value. cbn [costs].
  split; [apply costs_value_keys |].
  intros k Hk. unfold py_getitem.
  rewrite dict_get_absent; [reflexivity |].
  rewrite costs_value_keys. exact Hk.
Qed.

Lemma costs_keys_exact_witness :
  map fst (costs default_report) = cost_keys /\
  py_getitem (costs default_report) "revenue" = Raise KeyError.
Proof.
  destruct (costs_keys_exact 1000000 20 5 30 7.99 2 0.10 0.7 default_report
              default_report_ok) as [Hkeys Hother].
  split; [exact Hkeys |].
  apply Hother. unfold cost_keys. cbn [In].
  intros [E | [E | [E | [E | [E | [E | []]]]]]]; discriminate E.
Defined.

(** ** Usage-driven costs per user *)

(** X2: media_processing and storage_delivery are proportional to
    monthlyActiveUsers in both branches: media_processing is
    0.000009975 * mau * dau_percent * upload_percent * video_length_sec and
    storage_delivery is
    mau * (81/2048000 * dau_percent * upload_percent
           + 0.036 * data_consumption_gb). *)
Theorem usage_costs_proportional
    (mau : Z) (d u v price sp ad_rpm g : R) (r : report) :
  calculate_financials mau d u v price sp ad_rpm g = Ok r ->
  cost_is r "media_processing" (0.000009975 * IZR mau * d * u * v) /\
  cost_is r "storage_delivery"
    (IZR mau * (81 / 2048000 * d * u + 0.036 * g)).
Proof.
  intros H. apply calculate_financials_inv in H as [Hm ->].
  pose proof (costs_value_entries mau d u v g) as (Hmp & Hsd & _).
  unfold cost_is, report_value. cbn [costs].
  rewrite Hmp, Hsd. unfold branch.
  destruct (Z.eqb_spec mau 0) as [-> | N].
  - change (IZR 0) with 0. split; f_equal; lra.
  - unfold media_processing_value, storage_delivery_value,
      PRICE_PER_VIDEO_MINUTE_TRANSCODE, PRICE_PER_1000_CHARS_AI,
      PRICE_PER_GB_STORAGE, PRICE_PER_MILLION_READ_OPS.
    cbv zeta. generalize (IZR mau). intros m. split; f_equal; nra.
Qed.

Lemma usage_costs_proportional_witness :
  cost_is default_report "media_processing"
    (0.000009975 * IZR 1000000 * 20 * 5 * 30) /\
  cost_is default_report "storage_delivery"
    (IZR 1000000 * (81 / 2048000 * 20 * 5 + 0.036 * 0.7)).
Proof.
  exact (usage_costs_proportional 1000000 20 5 30 7.99 2 0.10 0.7
           default_report default_report_ok).
Defined.

(** ** Ad eligibility *)

Lemma views_per_user_value_pos (v g : R) :
  0 < v -> views_per_user_value v g = 2048 * g / v.
Proof.
  intros Hv. unfold views_per_user_value.
  destruct (Rlt_dec 0 (v / 30 * 15 / 1024)) as [_ | N]; [field; lra | lra].
Qed.

Lemma views_per_user_value_nonpos (v g : R) :
  v <= 0 -> views_per_user_value v g = 0.
Proof.
  intros Hv. unfold views_per_user_value.
  destruct (Rlt_dec 0 (v / 30 * 15 / 1024)) as [P | _]; [lra | reflexivity].
Qed.

Lemma ad_value_eligible (impressions ad_rpm : R) :
  snd (ad_value impressions ad_rpm) = msg_eligible <-> 2000000 <= impressions.
Proof.
  unfold ad_value.
  destruct (Rle_dec 2000000 impressions) as [P | N]; cbn [snd].
  - split; [intros _; exact P | reflexivity].
  - split; [intros E; symmetry in E; destruct (messages_differ E) | contradiction].
Qed.

(** X3: the message tells the branch of line 64, and the guard of line 59
    decides it for a non-positive length.  With impressions the value of
    line 60, a returned report carries the eligible message exactly when
    impressions >= 2,000,000 and the not-eligible message exactly when
    impressions < 2,000,000.  With video_length_sec <= 0 the guard gives no
    views: the impressions are 0, the message is the not-eligible one,
    ad_revenue is 0 and total_revenue is the subscription revenue, whatever
    monthlyActiveUsers and the data consumption are. *)
Theorem eligibility_criterion
    (mau : Z) (d u v price sp ad_rpm g : R) (r : report) :
  calculate_financials mau d u v price sp ad_rpm g = Ok r ->
  exists impressions,
    total_monthly_impressions mau v g = Ok impressions /\
    (ad_eligibility_message r = msg_eligible <-> 2000000 <= impressions) /\
    (ad_eligibility_message r = msg_not_eligible <-> impressions < 2000000) /\
    (v <= 0 ->
       impressions = 0 /\
       ad_eligibility_message r = msg_not_eligible /\
       ad_revenue r = 0 /\
       total_revenue r = subscription_revenue r).
Proof.
  intros H. apply calculate_financials_inv in H as [Hm ->].
  exists (IZR mau * views_per_user_value v g).
  split; [apply total_monthly_impressions_ok |].
  unfold report_value.
  cbn [ad_eligibility_message ad_revenue total_revenue subscription_revenue].
  split; [apply ad_value_eligible |].
  split.
  - unfold ad_value.
    destruct (Rle_dec 2000000 (IZR mau * views_per_user_value v g)) as [P | N];
      cbn [snd].
    + split; [intros E; destruct (messages_differ E) | lra].
    + split; [lra | reflexivity].
  - intros Hv. rewrite views_per_user_value_nonpos by assumption.
    assert (IZR mau * 0 = 0) as E by lra. rewrite E.
    split; [reflexivity |].
    unfold ad_value. destruct (Rle_dec 2000000 0) as [P | _]; [lra |].
    cbn [fst snd]. repeat split; lra.
Qed.

Lemma eligibility_criterion_witness :
  (exists impressions,
     total_monthly_impressions 1000000 30 0.7 = Ok impressions /\
     (ad_eligibility_message default_report = msg_eligible <->
      2000000 <= impressions)) /\
  (0 <= 0 /\
   exists r,
     calculate_financials 1000000 20 5 0 7.99 2 0.10 0.7 = Ok r /\
     ad_eligibility_message r = msg_not_eligible /\ ad_revenue r = 0).
Proof.
  split.
  - destruct (eligibility_criterion 1000000 20 5 30 7.99 2 0.10 0.7
                default_report default_report_ok) as (n & Hn & He & _).
    exists n. split; [exact Hn | exact He].
  - split; [lra |].
    pose proof (calculate_financials_ok 1000000 20 5 0 7.99 2 0.10 0.7
                  ltac:(lia)) as Hr.
    destruct (eligibility_criterion 1000000 20 5 0 7.99 2 0.10 0.7 _ Hr)
      as (n & _ & _ & _ & Hguard).
    destruct (Hguard ltac:(lra)) as (_ & Hmsg & Had & _).
    eexists. split; [exact Hr |]. split; [exact Hmsg | exact Had].
Defined.

(** X4: ad revenue is all or nothing.  A returned report either carries the
    not-eligible message with ad_revenue = 0, or the eligible message with
    ad_revenue = impressions / 1000 * ad_rpm for at least 2,000,000
    impressions, hence at least 2000 * ad_rpm when ad_rpm >= 0; the empty
    message of line 63 is never returned. *)
Theorem ad_revenue_all_or_nothing
    (mau : Z) (d u v price sp ad_rpm g : R) (r : report) :
  calculate_financials mau d u v price sp ad_rpm g = Ok r ->
  ((ad_eligibility_message r = msg_not_eligible /\ ad_revenue r = 0) \/
   (ad_eligibility_message r = msg_eligible /\
    (0 <= ad_rpm -> 2000 * ad_rpm <= ad_revenue r))) /\
  ad_eligibility_message r <> ""%string.
Proof.
  intros H. apply calculate_financials_inv in H as [Hm ->].
  unfold report_value, ad_value. cbn [ad_eligibility_message ad_revenue].
  destruct (Rle_dec 2000000 (IZR mau * views_per_user_value v g)) as [P | N];
    cbn [fst snd].
  - split; [right; split; [reflexivity | intros Hr; nra] |].
    unfold msg_eligible. discriminate.
  - split; [left; split; reflexivity |].
    rewrite msg_not_eligible_text. discriminate.
Qed.

Lemma ad_revenue_all_or_nothing_witness :
  ((ad_eligibility_message threshold_report = msg_not_eligible /\
    ad_revenue threshold_report = 0) \/
   (ad_eligibility_message threshold_report = msg_eligible /\
    (0 <= 0.10 -> 2000 * 0.10 <= ad_revenue threshold_report))) /\
  ad_eligibility_message threshold_report <> ""%string.
Proof.
  apply (ad_revenue_all_or_nothing 2000000 20 5 30 7.99 2 0.10 (15 / 1024)).
  rewrite calculate_financials_ok by lia. reflexivity.
Defined.

(** ** Growth with the user base *)

Lemma media_processing_value_linear (mau : Z) (d u v : R) :
  media_processing_value mau d u v = IZR mau * (0.000009975 * d * u * v).
Proof.
  unfold media_processing_value, PRICE_PER_VIDEO_MINUTE_TRANSCODE,
    PRICE_PER_1000_CHARS_AI.
  cbv zeta. generalize (IZR mau). intros m. nra.
Qed.

Lemma media_processing_value_mono (m1 m2 : Z) (d u v : R) :
  (m1 <= m2)%Z -> 0 <= d -> 0 <= u -> 0 <= v ->
  media_processing_value m1 d u v <= media_processing_value m2 d u v.
Proof.
  intros Hm Hd Hu Hv. rewrite !media_processing_value_linear.
  apply Rmult_le_compat_r; [nonneg | apply IZR_le; assumption].
Qed.

Lemma scale_costs_mono (m1 m2 : Z) :
  (1 <= m1 <= m2)%Z ->
  database_value m1 <= database_value m2 /\
  compute_recommendation_value m1 <= compute_recommendation_value m2 /\
  devops_value m1 <= devops_value m2.
Proof.
  intros Hm.
  unfold database_value, compute_recommendation_value, devops_value.
  pose proof (Rpower_scale_factor_mono m1 m2 1.5 Hm ltac:(lra)).
  pose proof (Rpower_scale_factor_mono m1 m2 1.8 Hm ltac:(lra)).
  pose proof (scale_factor_value_mono m1 m2 ltac:(lia)).
  repeat split; lra.
Qed.

(** X5: with the other inputs fixed and non-negative, raising
    monthlyActiveUsers within integers >= 0 never lowers media_processing,
    nor the total cost (data consumption being non-negative too). *)
Theorem mau_monotone_costs (m1 m2 : Z) (d u v price sp ad_rpm g : R) :
  (0 <= m1 <= m2)%Z -> 0 <= d -> 0 <= u -> 0 <= v ->
  exists r1 r2,
    calculate_financials m1 d u v price sp ad_rpm g = Ok r1 /\
    calculate_financials m2 d u v price sp ad_rpm g = Ok r2 /\
    cost_le "media_processing" r1 r2 /\
    (0 <= g -> cost_le "total" r1 r2).
Proof.
  intros Hm Hd Hu Hv.
  do 2 eexists.
  split; [apply calculate_financials_ok; lia |].
  split; [apply calculate_financials_ok; lia |].
  pose proof (costs_value_entries m1 d u v g) as (Hmp1 & _ & _ & _ & _ & Ht1).
  pose proof (costs_value_entries m2 d u v g) as (Hmp2 & _ & _ & _ & _ & Ht2).
  unfold cost_le, cost_is, report_value. cbn [costs].
  split.
  - do 2 eexists. split; [exact Hmp1 | split; [exact Hmp2 |]].
    apply (branch_mono (fun m => media_processing_value m d u v));
      [assumption | |].
    + intros m H1. apply media_processing_value_nonneg; (lia || assumption).
    + intros _. apply media_processing_value_mono; (lia || assumption).
  - intros Hg.
    do 2 eexists. split; [exact Ht1 | split; [exact Ht2 |]].
    apply (branch_mono (fun m => total_value m d u v g)); [assumption | |].
    + intros m H1. unfold total_value.
      pose proof (media_processing_value_nonneg m d u v ltac:(lia) Hd Hu Hv).
      pose proof (storage_delivery_value_mono 0 m d u g ltac:(lia) Hd Hu Hg) as Hs.
      rewrite (storage_delivery_value_linear 0) in Hs.
      change (IZR 0) with 0 in Hs.
      pose proof (database_value_nonneg m).
      pose proof (compute_recommendation_value_nonneg m).
      pose proof (devops_value_pos m H1). lra.
    + intros H1. unfold total_value.
      pose proof (media_processing_value_mono m1 m2 d u v ltac:(lia) Hd Hu Hv).
      pose proof (storage_delivery_value_mono m1 m2 d u g ltac:(lia) Hd Hu Hg).
      pose proof (scale_costs_mono m1 m2 ltac:(lia)) as (? & ? & ?). lra.
Qed.

Lemma mau_monotone_costs_witness :
  (0 <= 100000 <= 1000000)%Z /\
  exists r1 r2,
    calculate_financials 100000 20 5 30 7.99 2 0.10 0.7 = Ok r1 /\
    calculate_financials 1000000 20 5 30 7.99 2 0.10 0.7 = Ok r2 /\
    cost_le "media_processing" r1 r2 /\ cost_le "total" r1 r2.
Proof.
  split; [lia |].
  destruct (mau_monotone_costs 100000 1000000 20 5 30 7.99 2 0.10 0.7
              ltac:(lia) ltac:(lra) ltac:(lra) ltac:(lra))
    as (r1 & r2 & H1 & H2 & Hmp & Ht).
  exists r1, r2. repeat (split; [assumption |]). apply Ht. lra.
Defined.

Lemma views_per_user_value_nonneg (v g : R) :
  0 <= g -> 0 <= views_per_user_value v g.
Proof.
  intros Hg. unfold views_per_user_value.
  destruct (Rlt_dec 0 (v / 30 * 15 / 1024)) as [P | _]; [| lra].
  apply Rdiv_nonneg; assumption.
Qed.

Lemma ad_value_mono (i1 i2 ad_rpm : R) :
  i1 <= i2 -> 0 <= ad_rpm ->
  fst (ad_value i1 ad_rpm) <= fst (ad_value i2 ad_rpm).
Proof.
  intros Hi Hr. unfold ad_value.
  destruct (Rle_dec 2000000 i1) as [P1 | N1];
    destruct (Rle_dec 2000000 i2) as [P2 | N2]; cbn [fst]; nra.
Qed.

(** X6: with the other inputs fixed, data consumption and RPM non-negative,
    raising monthlyActiveUsers within integers >= 0 never lowers the
    impressions or ad_revenue, and a platform that is eligible stays
    eligible; with price and subscriber percentage non-negative as well it
    never lowers total_revenue. *)
Theorem mau_monotone_revenue (m1 m2 : Z) (d u v price sp ad_rpm g : R) :
  (0 <= m1 <= m2)%Z -> 0 <= g -> 0 <= ad_rpm ->
  exists r1 r2,
    calculate_financials m1 d u v price sp ad_rpm g = Ok r1 /\
    calculate_financials m2 d u v price sp ad_rpm g = Ok r2 /\
    ad_revenue r1 <= ad_revenue r2 /\
    (ad_eligibility_message r1 = msg_eligible ->
     ad_eligibility_message r2 = msg_eligible) /\
    (0 <= price -> 0 <= sp -> total_revenue r1 <= total_revenue r2).
Proof.
  intros Hm Hg Hr.
  assert (IZR m1 <= IZR m2) as HR by (apply IZR_le; lia).
  pose proof (views_per_user_value_nonneg v g Hg) as Hv.
  assert (IZR m1 * views_per_user_value v g
          <= IZR m2 * views_per_user_value v g) as Hi
    by (apply Rmult_le_compat_r; assumption).
  pose proof (ad_value_mono _ _ ad_rpm Hi Hr) as Had.
  do 2 eexists.
  split; [apply calculate_financials_ok; lia |].
  split; [apply calculate_financials_ok; lia |].
  unfold report_value.
  cbn [ad_revenue ad_eligibility_message total_revenue].
  split; [exact Had |]. split.
  - rewrite !ad_value_eligible. lra.
  - intros Hp Hs.
    assert (IZR m1 * (sp / 100) * price <= IZR m2 * (sp / 100) * price).
    { apply Rmult_le_compat_r; [assumption |].
      apply Rmult_le_compat_r; [lra | assumption]. }
    lra.
Qed.

Lemma mau_monotone_revenue_witness :
  (0 <= 100000 <= 1000000)%Z /\
  exists r1 r2,
    calculate_financials 100000 20 5 30 7.99 2 0.10 0.7 = Ok r1 /\
    calculate_financials 1000000 20 5 30 7.99 2 0.10 0.7 = Ok r2 /\
    ad_revenue r1 <= ad_revenue r2 /\
    total_revenue r1 <= total_revenue r2.
Proof.
  split; [lia |].
  destruct (mau_monotone_revenue 100000 1000000 20 5 30 7.99 2 0.10 0.7
              ltac:(lia) ltac:(lra) ltac:(lra))
    as (r1 & r2 & H1 & H2 & Had & _ & Ht).
  exists r1, r2. repeat (split; [assumption |]). apply Ht; lra.
Defined.

(** ** The scale-driven costs *)

Lemma scale_factor_value_lt (m1 m2 : Z) :
  (0 <= m1 < m2)%Z -> scale_factor_value m1 < scale_factor_value m2.
Proof.
  intros [H1 H2]. unfold scale_factor_value.
  assert (0 < IZR (m1 + 1)) as Hp by (apply IZR_lt; lia).
  assert (IZR (m1 + 1) < IZR (m2 + 1)) as Hlt by (apply IZR_lt; lia).
  pose proof (ln_increasing _ _ Hp Hlt) as Hln.
  pose proof log10_100000_pos as H5.
  assert (0 < ln 10) as H10 by (apply ln_gt_1; lra).
  apply Rmult_lt_compat_r; [apply Rinv_0_lt_compat; exact H5 |].
  apply Rmult_lt_compat_r; [apply Rinv_0_lt_compat; exact H10 | exact Hln].
Qed.

Lemma scale_factor_value_ge_1 (mau : Z) :
  (0 <= mau)%Z -> (1 <= scale_factor_value mau <-> (99999 <= mau)%Z).
Proof.
  intros Hm. rewrite <- scale_factor_value_99999. split.
  - intros Hle. destruct (Z_lt_le_dec mau 99999) as [Hlt | Hge]; [| exact Hge].
    pose proof (scale_factor_value_lt mau 99999 ltac:(lia)). lra.
  - intros Hge. apply scale_factor_value_mono. lia.
Qed.

Lemma Rpower_1_l (e : R) : Rpower 1 e = 1.
Proof. unfold Rpower. rewrite ln_1, Rmult_0_r. apply exp_0. Qed.

Lemma Rpower_ge_1 (x e : R) :
  0 < x -> 0 < e -> (1 <= Rpower x e <-> 1 <= x).
Proof.
  intros Hx He. rewrite <- (Rpower_1_l e) at 1. split.
  - intros Hle. destruct (Rlt_le_dec x 1) as [Hlt | Hge]; [| exact Hge].
    pose proof (Rlt_Rpower_l x 1 e He ltac:(lra)). lra.
  - intros Hge. apply Rle_Rpower_l; lra.
Qed.

(** X7: the scale factor reaches 1 at monthlyActiveUsers = 99,999: a
    returned report has database >= 2550 exactly when mau >= 99,999, and
    likewise compute_recommendation >= 3250 and devops >= 50. *)
Theorem scale_costs_floor
    (mau : Z) (d u v price sp ad_rpm g : R) (r : report) :
  calculate_financials mau d u v price sp ad_rpm g = Ok r ->
  exists db cr dv,
    cost_is r "database" db /\
    cost_is r "compute_recommendation" cr /\
    cost_is r "devops" dv /\
    (2550 <= db <-> (99999 <= mau)%Z) /\
    (3250 <= cr <-> (99999 <= mau)%Z) /\
    (50 <= dv <-> (99999 <= mau)%Z).
Proof.
  intros H. apply calculate_financials_inv in H as [Hm ->].
  pose proof (costs_value_entries mau d u v g) as (_ & _ & Hdb & Hcr & Hdv & _).
  do 3 eexists. unfold cost_is, report_value. cbn [costs].
  split; [exact Hdb |]. split; [exact Hcr |]. split; [exact Hdv |].
  unfold branch. destruct (Z.eqb_spec mau 0) as [-> | N].
  - repeat split; intros; (lra || lia).
  - assert (1 <= mau)%Z as H1 by lia.
    pose proof (scale_factor_value_pos mau H1) as Hs.
    pose proof (scale_factor_value_ge_1 mau Hm) as Hge.
    pose proof (Rpower_ge_1 (scale_factor_value mau) 1.5 Hs ltac:(lra)) as H15.
    pose proof (Rpower_ge_1 (scale_factor_value mau) 1.8 Hs ltac:(lra)) as H18.
    unfold database_value, compute_recommendation_value, devops_value.
    rewrite <- Hge.
    split; [rewrite <- H15; split; lra |].
    split; [rewrite <- H18; split; lra | split; lra].
Qed.

Lemma scale_costs_floor_witness :
  exists db cr dv,
    cost_is default_report "database" db /\
    cost_is default_report "compute_recommendation" cr /\
    cost_is default_report "devops" dv /\
    (2550 <= db <-> (99999 <= 1000000)%Z) /\
    (3250 <= cr <-> (99999 <= 1000000)%Z) /\
    (50 <= dv <-> (99999 <= 1000000)%Z).
Proof.
  exact (scale_costs_floor 1000000 20 5 30 7.99 2 0.10 0.7 default_report
           default_report_ok).
Defined.

Lemma scale_factor_value_slider_max (mau : Z) :
  (0 <= mau <= 20000000)%Z -> scale_factor_value mau <= 1.5.
Proof.
  intros Hm.
  apply Rle_trans with (scale_factor_value 20000000);
    [apply scale_factor_value_mono; lia |].
  unfold scale_factor_value. change (IZR (20000000 + 1)) with 20000001.
  assert (0 < ln 10) as Hc by (apply ln_gt_1; lra).
  pose proof ln_100000_gt_10 as Hb.
  replace (ln 20000001 / ln 10 / (ln 100000 / ln 10))
    with (ln 20000001 / ln 100000) by (field; lra).
  assert (2 * ln 20000001 < 3 * ln 100000) as Hln.
  { pose proof (ln_pow 20000001 ltac:(lra) 2) as E2.
    pose proof (ln_pow 100000 ltac:(lra) 3) as E3.
    assert (ln (20000001 ^ 2) < ln (100000 ^ 3))
      by (apply ln_increasing; [apply pow_lt; lra | cbn [pow]; lra]).
    cbn [INR] in E2, E3. lra. }
  apply Rmult_le_reg_r with (ln 100000); [lra |].
  unfold Rdiv at 1. rewrite Rmult_assoc, Rinv_l by lra. lra.
Qed.

Lemma Rpower_15_15 : Rpower 1.5 1.5 <= 1.84.
Proof.
  assert (Rpower 1.5 1.5 * Rpower 1.5 1.5 = 3.375) as Hsq.
  { rewrite <- Rpower_plus.
    replace (1.5 + 1.5) with (INR 3) by (cbn [INR]; lra).
    rewrite Rpower_pow by lra. cbn [pow]. lra. }
  assert (0 < Rpower 1.5 1.5) by (unfold Rpower; apply exp_pos).
  nra.
Qed.

Lemma Rpower_15_18 : Rpower 1.5 1.8 <= 2.25.
Proof.
  apply Rle_trans with (Rpower 1.5 (INR 2)).
  - apply Rle_Rpower; [lra | cbn [INR]; lra].
  - rewrite Rpower_pow by lra. cbn [pow]. lra.
Qed.

(** X8: over the slider range of monthlyActiveUsers, 0 to 20,000,000
    (line 95), the scale factor stays at or below 1.5, so devops is at most
    75, database at most 4692 and compute_recommendation at most 7312.5,
    whatever the other inputs are. *)
Theorem scale_costs_bounded_on_slider
    (mau : Z) (d u v price sp ad_rpm g : R) :
  (0 <= mau <= 20000000)%Z ->
  exists r db cr dv,
    calculate_financials mau d u v price sp ad_rpm g = Ok r /\
    cost_is r "database" db /\
    cost_is r "compute_recommendation" cr /\
    cost_is r "devops" dv /\
    0 <= db <= 4692 /\ 0 <= cr <= 7312.5 /\ 0 <= dv <= 75.
Proof.
  intros Hm.
  pose proof (costs_value_entries mau d u v g) as (_ & _ & Hdb & Hcr & Hdv & _).
  do 4 eexists.
  split; [apply calculate_financials_ok; lia |].
  unfold cost_is, report_value. cbn [costs].
  split; [exact Hdb |]. split; [exact Hcr |]. split; [exact Hdv |].
  unfold branch. destruct (Z.eqb_spec mau 0) as [-> | N];
    [repeat split; lra |].
  assert (1 <= mau)%Z as H1 by lia.
  pose proof (scale_factor_value_pos mau H1) as Hs.
  pose proof (scale_factor_value_slider_max mau Hm) as Hmax.
  pose proof (Rle_Rpower_l (scale_factor_value mau) 1.5 1.5
                ltac:(lra) ltac:(lra)) as H15.
  pose proof (Rle_Rpower_l (scale_factor_value mau) 1.5 1.8
                ltac:(lra) ltac:(lra)) as H18.
  pose proof Rpower_15_15. pose proof Rpower_15_18.
  pose proof (Rpower_nonneg (scale_factor_value mau) 1.5).
  pose proof (Rpower_nonneg (scale_factor_value mau) 1.8).
  unfold database_value, compute_recommendation_value, devops_value.
  repeat split; lra.
Qed.

Lemma scale_costs_bounded_on_slider_witness :
  (0 <= 20000000 <= 20000000)%Z /\
  exists r db cr dv,
    calculate_financials 20000000 50 20 120 30 40 0.25 20 = Ok r /\
    cost_is r "database" db /\
    cost_is r "compute_recommendation" cr /\
    cost_is r "devops" dv /\
    0 <= db <= 4692 /\ 0 <= cr <= 7312.5 /\ 0 <= dv <= 75.
Proof.
  split; [lia |].
  apply (scale_costs_bounded_on_slider 20000000 50 20 120 30 40 0.25 20). lia.
Defined.

(** ** The first user *)

(** X9: the scale-driven costs are strictly positive as soon as there is one
    user, whatever the other inputs are; with non-negative usage inputs the
    total cost is then strictly positive as well, so net_profit is strictly
    below total_revenue. *)
Theorem costs_positive_from_first_user
    (mau : Z) (d u v price sp ad_rpm g : R) :
  (1 <= mau)%Z ->
  exists r db cr dv tot,
    calculate_financials mau d u v price sp ad_rpm g = Ok r /\
    cost_is r "database" db /\
    cost_is r "compute_recommendation" cr /\
    cost_is r "devops" dv /\
    cost_is r "total" tot /\
    0 < db /\ 0 < cr /\ 0 < dv /\
    (0 <= d -> 0 <= u -> 0 <= v -> 0 <= g ->
     0 < tot /\ net_profit r < total_revenue r).
Proof.
  intros H1.
  pose proof (costs_value_entries mau d u v g)
    as (_ & _ & Hdb & Hcr & Hdv & Htot).
  do 5 eexists.
  split; [apply calculate_financials_ok; lia |].
  unfold cost_is, report_value. cbn [costs net_profit total_revenue].
  split; [exact Hdb |]. split; [exact Hcr |]. split; [exact Hdv |].
  split; [exact Htot |].
  unfold branch. destruct (Z.eqb_spec mau 0) as [E | _]; [lia |].
  pose proof (scale_factor_value_pos mau H1) as Hs.
  pose proof (devops_value_pos mau H1) as Pdv.
  assert (0 < database_value mau) as Pdb.
  { unfold database_value. apply Rmult_lt_0_compat; [lra |].
    unfold Rpower. apply exp_pos. }
  assert (0 < compute_recommendation_value mau) as Pcr.
  { unfold compute_recommendation_value. apply Rmult_lt_0_compat; [lra |].
    unfold Rpower. apply exp_pos. }
  repeat (split; [assumption |]).
  intros Hd Hu Hv Hg.
  pose proof (media_processing_value_nonneg mau d u v ltac:(lia) Hd Hu Hv).
  assert (0 <= storage_delivery_value mau d u g).
  { rewrite storage_delivery_value_linear.
    apply Rmult_le_pos;
      [apply IZR_nonneg; lia | apply storage_delivery_rate_nonneg; assumption]. }
  unfold total_value. split; lra.
Qed.

Lemma costs_positive_from_first_user_witness :
  (1 <= 1)%Z /\
  exists r tot,
    calculate_financials 1 20 5 30 7.99 2 0.10 0.7 = Ok r /\
    cost_is r "total" tot /\ 0 < tot /\ net_profit r < total_revenue r.
Proof.
  split; [lia |].
  destruct (costs_positive_from_first_user 1 20 5 30 7.99 2 0.10 0.7
              ltac:(lia))
    as (r & db & cr & dv & tot & Hr & _ & _ & _ & Ht & _ & _ & _ & Hpos).
  exists r, tot. split; [exact Hr |]. split; [exact Ht |].
  apply Hpos; lra.
Defined.

(** ** The other inputs *)

(** X10: the monetization levers only move revenue.  With
    monthlyActiveUsers >= 0 and a non-negative subscriber percentage,
    raising sub_price and ad_rpm leaves the costs dict and the eligibility
    message unchanged and never lowers subscription_revenue, ad_revenue or
    net_profit. *)
Theorem monetization_levers
    (mau : Z) (d u v p1 p2 sp rpm1 rpm2 g : R) :
  (0 <= mau)%Z -> 0 <= sp -> p1 <= p2 -> rpm1 <= rpm2 ->
  exists r1 r2,
    calculate_financials mau d u v p1 sp rpm1 g = Ok r1 /\
    calculate_financials mau d u v p2 sp rpm2 g = Ok r2 /\
    costs r1 = costs r2 /\
    ad_eligibility_message r1 = ad_eligibility_message r2 /\
    subscription_revenue r1 <= subscription_revenue r2 /\
    ad_revenue r1 <= ad_revenue r2 /\
    net_profit r1 <= net_profit r2.
Proof.
  intros Hm Hs Hp Hr.
  do 2 eexists.
  split; [apply calculate_financials_ok; lia |].
  split; [apply calculate_financials_ok; lia |].
  unfold report_value, ad_value.
  cbn [costs ad_eligibility_message subscription_revenue ad_revenue net_profit].
  pose proof (IZR_nonneg mau Hm) as HR.
  assert (IZR mau * (sp / 100) * p1 <= IZR mau * (sp / 100) * p2) as Hsub.
  { apply Rmult_le_compat_l; [| assumption]. apply Rmult_le_pos; lra. }
  destruct (Rle_dec 2000000 (IZR mau * views_per_user_value v g)) as [P | N];
    cbn [fst snd].
  - assert (IZR mau * views_per_user_value v g / 1000 * rpm1
            <= IZR mau * views_per_user_value v g / 1000 * rpm2)
      by (apply Rmult_le_compat_l; lra).
    repeat split; (reflexivity || lra).
  - repeat split; (reflexivity || lra).
Qed.

Lemma monetization_levers_witness :
  (0 <= 1000000)%Z /\ 0 <= 2 /\ 7.99 <= 9.99 /\ 0.10 <= 0.25 /\
  exists r1 r2,
    calculate_financials 1000000 20 5 30 7.99 2 0.10 0.7 = Ok r1 /\
    calculate_financials 1000000 20 5 30 9.99 2 0.25 0.7 = Ok r2 /\
    costs r1 = costs r2 /\
    ad_eligibility_message r1 = ad_eligibility_message r2 /\
    subscription_revenue r1 <= subscription_revenue r2 /\
    ad_revenue r1 <= ad_revenue r2 /\
    net_profit r1 <= net_profit r2.
Proof.
  split; [lia |]. split; [lra |]. split; [lra |]. split; [lra |].
  apply (monetization_levers 1000000 20 5 30 7.99 9.99 2 0.10 0.25 0.7);
    solve [lia | lra].
Defined.

(** X11: longer videos never pay.  With the other inputs fixed in their
    domains, raising a positive video_length_sec never lowers
    media_processing or the total cost, leaves storage_delivery and
    subscription_revenue unchanged, and never raises ad_revenue or
    net_profit. *)
Theorem video_length_tradeoff
    (mau : Z) (d u v1 v2 price sp ad_rpm g : R) :
  (0 <= mau)%Z -> 0 <= d -> 0 <= u -> 0 < v1 <= v2 -> 0 <= g -> 0 <= ad_rpm ->
  exists r1 r2,
    calculate_financials mau d u v1 price sp ad_rpm g = Ok r1 /\
    calculate_financials mau d u v2 price sp ad_rpm g = Ok r2 /\
    cost_le "media_processing" r1 r2 /\
    cost_le "total" r1 r2 /\
    dict_get (costs r1) "storage_delivery"
    = dict_get (costs r2) "storage_delivery" /\
    subscription_revenue r1 = subscription_revenue r2 /\
    ad_revenue r2 <= ad_revenue r1 /\
    net_profit r2 <= net_profit r1.
Proof.
  intros Hm Hd Hu [Hv1 Hv] Hg Hr.
  pose proof (IZR_nonneg mau Hm) as HR.
  pose proof (costs_value_entries mau d u v1 g)
    as (Hmp1 & Hsd1 & _ & _ & _ & Ht1).
  pose proof (costs_value_entries mau d u v2 g)
    as (Hmp2 & Hsd2 & _ & _ & _ & Ht2).
  assert (media_processing_value mau d u v1
          <= media_processing_value mau d u v2) as Hmp.
  { rewrite !media_processing_value_linear.
    apply Rmult_le_compat_l; [assumption |].
    apply Rmult_le_compat_l; [nonneg | assumption]. }
  assert (IZR mau * views_per_user_value v2 g
          <= IZR mau * views_per_user_value v1 g) as Hi.
  { apply Rmult_le_compat_l; [assumption |].
    rewrite !views_per_user_value_pos by lra.
    apply Rmult_le_compat_l; [lra |].
    apply Rinv_le_contravar; assumption. }
  pose proof (ad_value_mono _ _ ad_rpm Hi Hr) as Had.
  do 2 eexists.
  split; [apply calculate_financials_ok; lia |].
  split; [apply calculate_financials_ok; lia |].
  unfold cost_le, cost_is, report_value.
  cbn [costs subscription_revenue ad_revenue net_profit].
  split; [do 2 eexists; split; [exact Hmp1 | split; [exact Hmp2 |]] |].
  { unfold branch. destruct (mau =? 0)%Z; lra. }
  split; [do 2 eexists; split; [exact Ht1 | split; [exact Ht2 |]] |].
  { unfold branch, total_value. destruct (mau =? 0)%Z; lra. }
  split; [rewrite Hsd1, Hsd2; reflexivity |].
  split; [reflexivity |]. split; [exact Had |].
  unfold total_value. destruct (mau =? 0)%Z; lra.
Qed.

Lemma video_length_tradeoff_witness :
  (0 <= 1000000)%Z /\ 0 < 30 <= 60 /\
  exists r1 r2,
    calculate_financials 1000000 20 5 30 7.99 2 0.10 0.7 = Ok r1 /\
    calculate_financials 1000000 20 5 60 7.99 2 0.10 0.7 = Ok r2 /\
    cost_le "media_processing" r1 r2 /\
    cost_le "total" r1 r2 /\
    dict_get (costs r1) "storage_delivery"
    = dict_get (costs r2) "storage_delivery" /\
    subscription_revenue r1 = subscription_revenue r2 /\
    ad_revenue r2 <= ad_revenue r1 /\
    net_profit r2 <= net_profit r1.
Proof.
  split; [lia |]. split; [lra |].
  apply (video_length_tradeoff 1000000 20 5 30 60 7.99 2 0.10 0.7);
    solve [lia | lra].
Defined.

(** * The results page *)

Lemma sbind_lift_ok {A B : Type} (a : A) (k : A -> script B) :
  sbind (lift (Ok a)) k = k a.
Proof. unfold sbind, lift. cbn [fst snd app]. destruct (k a). reflexivity. Qed.

Lemma results_page_ok
    (mau : Z) (d u v price sp ad_rpm g : R) (r : report) (out : script unit) :
  calculate_financials mau d u v price sp ad_rpm g = Ok r ->
  main_panel r = out ->
  results_page mau d u v price sp ad_rpm g = out.
Proof.
  intros Hr Hp. unfold results_page. rewrite Hr, sbind_lift_ok. exact Hp.
Qed.

Lemma main_panel_ok (r : report) (tot mp sd db cr : R) :
  cost_is r "total" tot ->
  cost_is r "media_processing" mp ->
  cost_is r "storage_delivery" sd ->
  cost_is r "database" db ->
  cost_is r "compute_recommendation" cr ->
  main_panel r = (panel_trace r tot mp sd db cr, Ok tt).
Proof.
  unfold cost_is. intros Ht Hmp Hsd Hdb Hcr.
  unfold main_panel, py_getitem. rewrite Ht, Hmp, Hsd, Hdb, Hcr.
  reflexivity.
Qed.

(** The page of a report that [calculate_financials] returned. *)
Lemma main_panel_returned
    (mau : Z) (d u v price sp ad_rpm g : R) (r : report) :
  calculate_financials mau d u v price sp ad_rpm g = Ok r ->
  exists tot mp sd db cr dv,
    cost_is r "total" tot /\
    cost_is r "media_processing" mp /\
    cost_is r "storage_delivery" sd /\
    cost_is r "database" db /\
    cost_is r "compute_recommendation" cr /\
    cost_is r "devops" dv /\
    tot = mp + sd + db + cr + dv /\
    ((1 <= mau)%Z -> 0 < dv) /\
    main_panel r = (panel_trace r tot mp sd db cr, Ok tt).
Proof.
  intros H. apply calculate_financials_inv in H as [Hm ->].
  pose proof (costs_value_entries mau d u v g)
    as (Hmp & Hsd & Hdb & Hcr & Hdv & Htot).
  do 6 eexists.
  split; [exact Htot |]. split; [exact Hmp |]. split; [exact Hsd |].
  split; [exact Hdb |]. split; [exact Hcr |]. split; [exact Hdv |].
  split; [| split].
  - unfold branch, total_value. destruct (mau =? 0)%Z; lra.
  - intros H1. unfold branch. destruct (Z.eqb_spec mau 0) as [E | _]; [lia |].
    apply devops_value_pos. exact H1.
  - apply main_panel_ok; assumption.
Qed.

(** X12: with monthlyActiveUsers an int that converts to a float (at most
    10^308 in absolute value), the script runs to its end without an
    exception when monthlyActiveUsers >= 0, whatever the other inputs are:
    the page has its five elements in the main flow and five in each
    column.  With a negative monthlyActiveUsers the call on line 114 raises
    ValueError and nothing of the results page is emitted. *)
Theorem results_page_runs (mau : Z) (d u v price sp ad_rpm g : R) :
  ((0 <= mau <= INT_AS_FLOAT_MAX)%Z ->
     snd (results_page mau d u v price sp ad_rpm g) = Ok tt /\
     map fst (fst (results_page mau d u v price sp ad_rpm g)) =
     [Main; Main; Main; Main;
      Column 1; Column 1; Column 1; Column 1; Column 1;
      Column 2; Column 2; Column 2; Column 2; Column 2;
      Main]) /\
  ((- INT_AS_FLOAT_MAX <= mau < 0)%Z ->
     results_page mau d u v price sp ad_rpm g = ([], Raise ValueError)).
Proof.
  split.
  - intros [Hm _].
    pose proof (calculate_financials_ok mau d u v price sp ad_rpm g Hm) as Hr.
    destruct (main_panel_returned _ _ _ _ _ _ _ _ _ Hr)
      as (tot & mp & sd & db & cr & dv & _ & _ & _ & _ & _ & _ & _ & _ & Hp).
    rewrite (results_page_ok _ _ _ _ _ _ _ _ _ _ Hr Hp).
    split; reflexivity.
  - intros [_ Hm]. unfold results_page.
    rewrite calculate_financials_domain by assumption. reflexivity.
Qed.

Lemma results_page_runs_witness :
  ((0 <= 1000000 <= INT_AS_FLOAT_MAX)%Z /\
   snd (results_page 1000000 20 5 30 7.99 2 0.10 0.7) = Ok tt) /\
  ((- INT_AS_FLOAT_MAX <= -1 < 0)%Z /\
   results_page (-1) 20 5 30 7.99 2 0.10 0.7 = ([], Raise ValueError)).
Proof.
  split; (split; [unfold INT_AS_FLOAT_MAX; lia |]).
  - apply (proj1 (results_page_runs 1000000 20 5 30 7.99 2 0.10 0.7)).
    unfold INT_AS_FLOAT_MAX. lia.
  - apply (proj2 (results_page_runs (-1) 20 5 30 7.99 2 0.10 0.7)).
    unfold INT_AS_FLOAT_MAX. lia.
Defined.

(** X13: the cost column of the page shows the total, media processing,
    storage and delivery, and database plus compute_recommendation as one
    amount; devops is not shown.  The three component amounts therefore add
    up to the shown total minus devops, which is strictly less than the
    total as soon as there is one user. *)
Theorem cost_breakdown_omits_devops
    (mau : Z) (d u v price sp ad_rpm g : R) (r : report) :
  calculate_financials mau d u v price sp ad_rpm g = Ok r ->
  exists tot mp sd dbcr dv,
    elements_in_column 2 (fst (main_panel r)) =
    [ Subheader "Cost Breakdown";
      Metric "Total Monthly Costs" (Dollars tot) default_delta_color None;
      Metric "↳ Media Processing & AI" (Dollars mp) default_delta_color None;
      Metric "↳ Storage & Delivery" (Dollars sd) default_delta_color None;
      Metric "↳ Database & Compute" (Dollars dbcr) default_delta_color None
    ]%string /\
    cost_is r "total" tot /\
    cost_is r "devops" dv /\
    mp + sd + dbcr = tot - dv /\
    ((1 <= mau)%Z -> mp + sd + dbcr < tot).
Proof.
  intros H.
  destruct (main_panel_returned _ _ _ _ _ _ _ _ _ H)
    as (tot & mp & sd & db & cr & dv
        & Ht & Hmp & Hsd & Hdb & Hcr & Hdv & Hsum & Hpos & Hp).
  exists tot, mp, sd, (db + cr), dv.
  rewrite Hp. split; [reflexivity |].
  split; [exact Ht |]. split; [exact Hdv |].
  split; [lra |]. intros H1. specialize (Hpos H1). lra.
Qed.

Lemma cost_breakdown_omits_devops_witness :
  exists tot mp sd dbcr dv,
    elements_in_column 2 (fst (main_panel default_report)) =
    [ Subheader "Cost Breakdown";
      Metric "Total Monthly Costs" (Dollars tot) default_delta_color None;
      Metric "↳ Media Processing & AI" (Dollars mp) default_delta_color None;
      Metric "↳ Storage & Delivery" (Dollars sd) default_delta_color None;
      Metric "↳ Database & Compute" (Dollars dbcr) default_delta_color None
    ]%string /\
    cost_is default_report "total" tot /\
    cost_is default_report "devops" dv /\
    mp + sd + dbcr = tot - dv /\
    ((1 <= 1000000)%Z -> mp + sd + dbcr < tot).
Proof.
  exact (cost_breakdown_omits_devops 1000000 20 5 30 7.99 2 0.10 0.7
           default_report default_report_ok).
Defined.

Lemma profit_color_cases (x : R) :
  (profit_color x = "inverse"%string <-> 0 < x) /\
  (profit_color x = "off"%string <-> x < 0) /\
  (profit_color x = "normal"%string <-> x = 0).
Proof.
  unfold profit_color.
  destruct (Rlt_dec 0 x) as [P | NP]; [| destruct (Rlt_dec x 0) as [Q | NQ]].
  - repeat split; intros H; try reflexivity; try discriminate H; lra.
  - repeat split; intros H; try reflexivity; try discriminate H; lra.
  - repeat split; intros H; try reflexivity; try discriminate H; lra.
Qed.

(** X14: the main flow of the page is the header, the net-profit metric,
    a rule, the two columns and a rule.  The metric shows
    total_revenue - costs["total"], and its colour is "inverse" exactly
    when revenue exceeds the total cost, "off" exactly when it is below,
    and "normal" exactly when the two are equal. *)
Theorem profit_color_reflects_balance
    (mau : Z) (d u v price sp ad_rpm g : R) (r : report) :
  calculate_financials mau d u v price sp ad_rpm g = Ok r ->
  exists tot shown color,
    cost_is r "total" tot /\
    shown = total_revenue r - tot /\
    elements_in_main (fst (main_panel r)) =
    [ Header "Financial Summary";
      Metric "Net Monthly Profit (Revenue - Costs)" (Dollars shown) color
        (Some "Positive numbers indicate profit; negative numbers indicate loss.");
      Markdown "---";
      Columns 2;
      Markdown "---" ]%string /\
    (color = "inverse"%string <-> tot < total_revenue r) /\
    (color = "off"%string <-> total_revenue r < tot) /\
    (color = "normal"%string <-> total_revenue r = tot).
Proof.
  intros H.
  destruct (main_panel_returned _ _ _ _ _ _ _ _ _ H)
    as (tot & mp & sd & db & cr & dv & Ht & _ & _ & _ & _ & _ & _ & _ & Hp).
  assert (net_profit r = total_revenue r - tot) as Hnet.
  { apply calculate_financials_inv in H as [Hm ->].
    unfold cost_is, report_value in *. cbn [costs] in Ht.
    pose proof (costs_value_entries mau d u v g) as (_ & _ & _ & _ & _ & Ht').
    rewrite Ht' in Ht. injection Ht as <-. reflexivity. }
  exists tot, (net_profit r), (profit_color (net_profit r)).
  split; [exact Ht |]. split; [exact Hnet |].
  rewrite Hp. split; [reflexivity |].
  pose proof (profit_color_cases (net_profit r)) as (Hi & Ho & Hn).
  rewrite Hi, Ho, Hn, Hnet. repeat split; intros; lra.
Qed.

Lemma profit_color_reflects_balance_witness :
  exists tot shown color,
    cost_is loss_report "total" tot /\
    shown = total_revenue loss_report - tot /\
    elements_in_main (fst (main_panel loss_report)) =
    [ Header "Financial Summary";
      Metric "Net Monthly Profit (Revenue - Costs)" (Dollars shown) color
        (Some "Positive numbers indicate profit; negative numbers indicate loss.");
      Markdown "---";
      Columns 2;
      Markdown "---" ]%string /\
    (color = "inverse"%string <-> tot < total_revenue loss_report) /\
    (color = "off"%string <-> total_revenue loss_report < tot) /\
    (color = "normal"%string <-> total_revenue loss_report = tot).
Proof.
  exact (profit_color_reflects_balance 100000 5 1 120 0 0.25 0.04 0.1
           loss_report loss_report_ok).
Defined.

Lemma zero_report_ok (d u v price sp ad_rpm g : R) :
  calculate_financials 0 d u v price sp ad_rpm g = Ok zero_report.
Proof.
  rewrite calculate_financials_ok by lia. f_equal.
  unfold report_value, ad_value, zero_report.
  assert (IZR 0 * views_per_user_value v g = 0) as Hz
    by (change (IZR 0) with 0; lra).
  rewrite Hz. destruct (Rle_dec 2000000 0) as [P | _]; [lra |].
  cbn [fst snd Z.eqb]. change (IZR 0) with 0.
  f_equal; lra.
Qed.

(** X15: with monthlyActiveUsers = 0 the page is the same whatever the
    other seven inputs are: every amount shown is 0, the profit colour is
    "normal", and the message is the not-eligible one. *)
Theorem zero_mau_page (d u v price sp ad_rpm g : R) :
  let page := results_page 0 d u v price sp ad_rpm g in
  snd page = Ok tt /\
  elements_in_main (fst page) =
  [ Header "Financial Summary";
    Metric "Net Monthly Profit (Revenue - Costs)" (Dollars 0) "normal"
      (Some "Positive numbers indicate profit; negative numbers indicate loss.");
    Markdown "---";
    Columns 2;
    Markdown "---" ]%string /\
  elements_in_column 1 (fst page) =
  [ Subheader "Revenue Breakdown";
    Metric "Total Monthly Revenue" (Dollars 0) "normal" None;
    Metric "↳ Subscription Revenue" (Dollars 0) "normal" None;
    Metric "↳ Ad Revenue" (Dollars 0) "normal" None;
    Info msg_not_eligible ]%string /\
  elements_in_column 2 (fst page) =
  [ Subheader "Cost Breakdown";
    Metric "Total Monthly Costs" (Dollars 0) "normal" None;
    Metric "↳ Media Processing & AI" (Dollars 0) "normal" None;
    Metric "↳ Storage & Delivery" (Dollars 0) "normal" None;
    Metric "↳ Database & Compute" (Dollars 0) "normal" None ]%string.
Proof.
  intros page.
  assert (page = (panel_trace zero_report 0 0 0 0 0, Ok tt)) as ->.
  { subst page.
    apply (results_page_ok _ _ _ _ _ _ _ _ zero_report);
      [apply zero_report_ok | apply main_panel_ok; reflexivity]. }
  assert (profit_color 0 = "normal"%string) as Hc
    by (apply (profit_color_cases 0); reflexivity).
  cbn [fst snd]. unfold panel_trace, zero_report, default_delta_color.
  cbn [net_profit total_revenue subscription_revenue ad_revenue
       ad_eligibility_message].
  rewrite Hc. replace (0 + 0) with 0 by lra.
  repeat split; reflexivity.
Qed.

(** ** The page behind the sliders *)

Lemma mau_slider_grid (mau : Z) :
  slider_value 0 20000000 1000000 100000 (IZR mau) ->
  (mau = 0 \/ 100000 <= mau)%Z.
Proof.
  intros [[Hlo _] [Hdef | (k & Hk & Hgrid)]].
  - apply eq_IZR in Hdef. lia.
  - assert (IZR mau = IZR (k * 100000)) as E by (rewrite mult_IZR; lra).
    apply eq_IZR in E. lia.
Qed.

Lemma scale_costs_above_anchor (mau : Z) :
  (100000 <= mau)%Z ->
  2550 < database_value mau /\
  3250 < compute_recommendation_value mau /\
  50 < devops_value mau.
Proof.
  intros Hm.
  pose proof (scale_factor_value_lt 99999 mau ltac:(lia)) as Hs.
  rewrite scale_factor_value_99999 in Hs.
  pose proof (Rlt_Rpower_l 1 (scale_factor_value mau) 1.5
                ltac:(lra) ltac:(lra)) as H15.
  pose proof (Rlt_Rpower_l 1 (scale_factor_value mau) 1.8
                ltac:(lra) ltac:(lra)) as H18.
  rewrite Rpower_1_l in H15, H18.
  unfold database_value, compute_recommendation_value, devops_value.
  repeat split; lra.
Qed.

(** X16: for every combination of values the sidebar sliders can deliver,
    the script runs to the end of the results page without an exception;
    the video length being at least 5, the guarded division of line 59 is
    the branch taken; and monthlyActiveUsers being 0 or at least 100,000,
    the scale-driven costs are either all 0 or all above their values at
    scale factor 1 (2550, 3250 and 50). *)
Theorem page_behind_sliders (mau : Z) (d u v price sp ad_rpm g : R) :
  sidebar_values mau d u v price sp ad_rpm g ->
  exists r db cr dv,
    calculate_financials mau d u v price sp ad_rpm g = Ok r /\
    snd (results_page mau d u v price sp ad_rpm g) = Ok tt /\
    total_monthly_impressions mau v g = Ok (2048 * IZR mau * g / v) /\
    cost_is r "database" db /\
    cost_is r "compute_recommendation" cr /\
    cost_is r "devops" dv /\
    ((mau = 0%Z /\ db = 0 /\ cr = 0 /\ dv = 0) \/
     ((100000 <= mau)%Z /\ 2550 < db /\ 3250 < cr /\ 50 < dv)).
Proof.
  intros (Hmau & _ & _ & _ & Hv & _).
  pose proof (mau_slider_grid mau Hmau) as Hgrid.
  assert (0 <= mau)%Z as Hm by lia.
  assert (0 < v) as Hvpos by (destruct Hv as [[Hlo _] _]; lra).
  pose proof (calculate_financials_ok mau d u v price sp ad_rpm g Hm) as Hr.
  pose proof (costs_value_entries mau d u v g) as (_ & _ & Hdb & Hcr & Hdv & _).
  do 4 eexists.
  split; [exact Hr |].
  split.
  { destruct (main_panel_returned _ _ _ _ _ _ _ _ _ Hr)
      as (tot & mp & sd & db & cr & dv & _ & _ & _ & _ & _ & _ & _ & _ & Hp).
    rewrite (results_page_ok _ _ _ _ _ _ _ _ _ _ Hr Hp). reflexivity. }
  split.
  { rewrite total_monthly_impressions_ok,
      views_per_user_value_pos by assumption.
    f_equal. field. lra. }
  unfold cost_is, report_value. cbn [costs].
  split; [exact Hdb |]. split; [exact Hcr |]. split; [exact Hdv |].
  unfold branch. destruct Hgrid as [-> | Hbig].
  - left. repeat split; reflexivity.
  - right. destruct (Z.eqb_spec mau 0) as [E | _]; [lia |].
    split; [exact Hbig | apply scale_costs_above_anchor; exact Hbig].
Qed.

Lemma default_sidebar_values : sidebar_values 1000000 20 5 30 7.99 2 0.10 0.7.
Proof.
  unfold sidebar_values, slider_value.
  repeat split; try lra; left; lra.
Qed.

Lemma page_behind_sliders_witness :
  sidebar_values 1000000 20 5 30 7.99 2 0.10 0.7 /\
  exists r db cr dv,
    calculate_financials 1000000 20 5 30 7.99 2 0.10 0.7 = Ok r /\
    snd (results_page 1000000 20 5 30 7.99 2 0.10 0.7) = Ok tt /\
    total_monthly_impressions 1000000 30 0.7
    = Ok (2048 * IZR 1000000 * 0.7 / 30) /\
    cost_is r "database" db /\
    cost_is r "compute_recommendation" cr /\
    cost_is r "devops" dv /\
    ((1000000%Z = 0%Z /\ db = 0 /\ cr = 0 /\ dv = 0) \/
     ((100000 <= 1000000)%Z /\ 2550 < db /\ 3250 < cr /\ 50 < dv)).
Proof.
  split; [exact default_sidebar_values |].
  exact (page_behind_sliders 1000000 20 5 30 7.99 2 0.10 0.7
           default_sidebar_values).
Defined.

(** ** Engagement and the logarithmic scale *)

(** X17: engagement only costs.  dau_percent and upload_percent enter the
    costs alone: with monthlyActiveUsers >= 0 and a non-negative video
    length, raising them (from non-negative values) leaves every revenue
    field and the message unchanged, never lowers media_processing,
    storage_delivery or the total cost, and never raises net_profit. *)
Theorem engagement_only_costs
    (mau : Z) (d1 d2 u1 u2 v price sp ad_rpm g : R) :
  (0 <= mau)%Z -> 0 <= d1 <= d2 -> 0 <= u1 <= u2 -> 0 <= v ->
  exists r1 r2,
    calculate_financials mau d1 u1 v price sp ad_rpm g = Ok r1 /\
    calculate_financials mau d2 u2 v price sp ad_rpm g = Ok r2 /\
    subscription_revenue r1 = subscription_revenue r2 /\
    ad_revenue r1 = ad_revenue r2 /\
    total_revenue r1 = total_revenue r2 /\
    ad_eligibility_message r1 = ad_eligibility_message r2 /\
    cost_le "media_processing" r1 r2 /\
    cost_le "storage_delivery" r1 r2 /\
    cost_le "total" r1 r2 /\
    net_profit r2 <= net_profit r1.
Proof.
  intros Hm [Hd1 Hd] [Hu1 Hu] Hv.
  pose proof (IZR_nonneg mau Hm) as HR.
  pose proof (costs_value_entries mau d1 u1 v g)
    as (Hmp1 & Hsd1 & _ & _ & _ & Ht1).
  pose proof (costs_value_entries mau d2 u2 v g)
    as (Hmp2 & Hsd2 & _ & _ & _ & Ht2).
  assert (d1 * u1 <= d2 * u2) as Hdu by nra.
  assert (media_processing_value mau d1 u1 v
          <= media_processing_value mau d2 u2 v) as Hmp.
  { rewrite !media_processing_value_linear.
    apply Rmult_le_compat_l; [assumption |].
    assert (d1 * u1 * v <= d2 * u2 * v)
      by (apply Rmult_le_compat_r; assumption).
    nra. }
  assert (storage_delivery_value mau d1 u1 g
          <= storage_delivery_value mau d2 u2 g) as Hsd.
  { rewrite !storage_delivery_value_linear.
    apply Rmult_le_compat_l; [assumption |].
    unfold storage_delivery_rate, PRICE_PER_GB_STORAGE,
      PRICE_PER_MILLION_READ_OPS. nra. }
  do 2 eexists.
  split; [apply calculate_financials_ok; lia |].
  split; [apply calculate_financials_ok; lia |].
  unfold cost_le, cost_is, report_value.
  cbn [costs subscription_revenue ad_revenue total_revenue net_profit
       ad_eligibility_message].
  repeat (split; [reflexivity |]).
  split; [do 2 eexists; split; [exact Hmp1 | split; [exact Hmp2 |]] |].
  { unfold branch. destruct (mau =? 0)%Z; lra. }
  split; [do 2 eexists; split; [exact Hsd1 | split; [exact Hsd2 |]] |].
  { unfold branch. destruct (mau =? 0)%Z; lra. }
  split; [do 2 eexists; split; [exact Ht1 | split; [exact Ht2 |]] |].
  { unfold branch, total_value. destruct (mau =? 0)%Z; lra. }
  unfold total_value. destruct (mau =? 0)%Z; lra.
Qed.

Lemma engagement_only_costs_witness :
  (0 <= 1000000)%Z /\ 0 <= 20 <= 50 /\ 0 <= 5 <= 20 /\ 0 <= 30 /\
  exists r1 r2,
    calculate_financials 1000000 20 5 30 7.99 2 0.10 0.7 = Ok r1 /\
    calculate_financials 1000000 50 20 30 7.99 2 0.10 0.7 = Ok r2 /\
    subscription_revenue r1 = subscription_revenue r2 /\
    ad_revenue r1 = ad_revenue r2 /\
    total_revenue r1 = total_revenue r2 /\
    ad_eligibility_message r1 = ad_eligibility_message r2 /\
    cost_le "media_processing" r1 r2 /\
    cost_le "storage_delivery" r1 r2 /\
    cost_le "total" r1 r2 /\
    net_profit r2 <= net_profit r1.
Proof.
  split; [lia |]. split; [lra |]. split; [lra |]. split; [lra |].
  apply (engagement_only_costs 1000000 20 50 5 20 30 7.99 2 0.10 0.7);
    solve [lia | lra].
Defined.

Lemma ln_100000 : ln 100000 = 5 * ln 10.
Proof.
  pose proof (ln_pow 10 ltac:(lra) 5) as E. cbn [INR] in E.
  replace (10 ^ 5) with 100000 in E by (cbn [pow]; lra). lra.
Qed.

Lemma scale_factor_value_log10 (mau : Z) :
  scale_factor_value mau = ln (IZR (mau + 1)) / ln 10 / 5.
Proof.
  unfold scale_factor_value. rewrite ln_100000.
  assert (0 < ln 10) by (apply ln_gt_1; lra). field. lra.
Qed.

(** X18: the scale is logarithmic in mau + 1.  For monthlyActiveUsers >= 0
    the scale factor is log10(mau + 1) / 5, and multiplying mau + 1 by ten
    (going from mau to 10 * mau + 9) adds exactly 0.2 to it, hence exactly
    10 to the devops cost when mau >= 1. *)
Theorem scale_factor_tenfold (mau : Z) (d u v price sp ad_rpm g : R) :
  (0 <= mau)%Z ->
  exists s,
    scale_factor mau = Ok s /\
    s = ln (IZR (mau + 1)) / ln 10 / 5 /\
    scale_factor (10 * mau + 9) = Ok (s + 0.2) /\
    ((1 <= mau)%Z ->
     exists r1 r2 dv,
       calculate_financials mau d u v price sp ad_rpm g = Ok r1 /\
       calculate_financials (10 * mau + 9) d u v price sp ad_rpm g = Ok r2 /\
       cost_is r1 "devops" dv /\ cost_is r2 "devops" (dv + 10)).
Proof.
  intros Hm.
  assert (0 < ln 10) as H10 by (apply ln_gt_1; lra).
  assert (scale_factor_value (10 * mau + 9) = scale_factor_value mau + 0.2)
    as Hten.
  { rewrite !scale_factor_value_log10.
    replace (10 * mau + 9 + 1)%Z with (10 * (mau + 1))%Z by lia.
    rewrite mult_IZR.
    rewrite ln_mult by (try apply IZR_lt; lia || lra).
    replace 0.2 with (1 / 5) by lra. field. lra. }
  exists (scale_factor_value mau).
  split; [apply scale_factor_ok; assumption |].
  split; [apply scale_factor_value_log10 |].
  split; [rewrite scale_factor_ok by lia; f_equal; exact Hten |].
  intros H1.
  pose proof (costs_value_entries mau d u v g) as (_ & _ & _ & _ & Hdv1 & _).
  pose proof (costs_value_entries (10 * mau + 9) d u v g)
    as (_ & _ & _ & _ & Hdv2 & _).
  do 3 eexists.
  split; [apply calculate_financials_ok; lia |].
  split; [apply calculate_financials_ok; lia |].
  unfold cost_is, report_value. cbn [costs].
  split; [exact Hdv1 |].
  rewrite Hdv2. unfold branch.
  destruct (Z.eqb_spec mau 0) as [E | _]; [lia |].
  destruct (Z.eqb_spec (10 * mau + 9) 0) as [E | _]; [lia |].
  f_equal. unfold devops_value. rewrite Hten. lra.
Qed.

Lemma scale_factor_tenfold_witness :
  (0 <= 99999)%Z /\
  exists s,
    scale_factor 99999 = Ok s /\
    scale_factor 999999 = Ok (s + 0.2).
Proof.
  split; [lia |].
  destruct (scale_factor_tenfold 99999 20 5 30 7.99 2 0.10 0.7 ltac:(lia))
    as (s & Hs & _ & Hten & _).
  exists s. split; [exact Hs | exact Hten].
Defined.
